(** * AllSigns Field Service: estimate pricing, save and conversion workflow

    A shallow embedding of the logic of
    [src/components/Estimates/EstimateDetailModal.tsx] and of the error
    handling of [src/components/Dispatch/TicketDetailModal.tsx].

    - JavaScript numbers are IEEE 754 binary64 values: they are modelled by
      Rocq's primitive floats, whose operations round exactly as the
      JavaScript ones do.
    - JavaScript strings are sequences of UTF-16 code units: they are
      modelled by [list N].
    - React state, the relational backend and the browser dialogs are an
      explicit world that every handler transforms; the answers of the
      outside world (backend failures, generated ids, the clock, the
      confirm dialog) are inputs of the handler.
    - Console output has no effect on state or on the backend and is left
      out. *)

From Stdlib Require Import List Bool NArith ZArith Floats String Ascii Lia.
Import ListNotations.

(** ** JavaScript values *)

Module Js.

(** A string is its sequence of UTF-16 code units. *)
Definition jsstring := list N.

(** An ASCII literal of the source. *)
Definition lit (s : string) : jsstring :=
  map N_of_ascii (list_ascii_of_string s).

(** [a === b] on strings. *)
Fixpoint str_eqb (a b : jsstring) : bool :=
  match a, b with
  | [], [] => true
  | x :: a', y :: b' => N.eqb x y && str_eqb a' b'
  | _, _ => false
  end.

(** Truthiness of a string: every string but the empty one. *)
Definition truthy_str (s : jsstring) : bool :=
  match s with [] => false | _ :: _ => true end.

(** WhiteSpace and LineTerminator code points of ECMAScript, the ones
    [String.prototype.trim] strips. *)
Definition isWhiteSpace (c : N) : bool :=
  ((9 <=? c) && (c <=? 13) || (c =? 32) || (c =? 160) || (c =? 5760)
   || (8192 <=? c) && (c <=? 8202) || (c =? 8232) || (c =? 8233)
   || (c =? 8239) || (c =? 8287) || (c =? 12288) || (c =? 65279))%N.

Fixpoint trimStart (s : jsstring) : jsstring :=
  match s with
  | c :: s' => if isWhiteSpace c then trimStart s' else s
  | [] => []
  end.

Definition trimEnd (s : jsstring) : jsstring := rev (trimStart (rev s)).

(** [s.trim()] *)
Definition trim (s : jsstring) : jsstring := trimEnd (trimStart s).

Fixpoint startsWith (pat s : jsstring) : bool :=
  match pat, s with
  | [], _ => true
  | p :: pat', c :: s' => N.eqb p c && startsWith pat' s'
  | _ :: _, [] => false
  end.

(** [s.includes(pat)] *)
Fixpoint includes (pat s : jsstring) : bool :=
  startsWith pat s ||
  match s with
  | [] => false
  | _ :: s' => includes pat s'
  end.

(** [l.map((x, index) => f index x)] *)
Fixpoint map_index_from {A B : Type} (f : nat -> A -> B) (i : nat) (l : list A)
  : list B :=
  match l with
  | [] => []
  | x :: l' => f i x :: map_index_from f (S i) l'
  end.

Definition map_index {A B : Type} (f : nat -> A -> B) (l : list A) : list B :=
  map_index_from f 0 l.

(** A number is a binary64 float. *)
Definition number := float.

(** Truthiness of a number: every number but +0, -0 and NaN. *)
Definition truthy_num (x : number) : bool :=
  negb (PrimFloat.eqb x 0 || PrimFloat.is_nan x).

(** [x || 0] on an optional number ([undefined] is falsy). *)
Definition or_zero (x : option number) : number :=
  match x with
  | Some v => if truthy_num v then v else 0%float
  | None => 0%float
  end.

(** [s || null] on an optional string ([undefined] and [''] are falsy). *)
Definition or_null (x : option jsstring) : option jsstring :=
  match x with
  | Some s => if truthy_str s then Some s else None
  | None => None
  end.

(** [s || d] on a string. *)
Definition or_default (s d : jsstring) : jsstring :=
  if truthy_str s then s else d.

(** [Number(x)] applied to a value that is a number already. *)
Definition Number (x : number) : number := x.

(** [a === b] on numbers, and "both NaN": the two values cannot be told
    apart by any comparison of the language. *)
Definition same_number (a b : number) : Prop :=
  a = b \/ PrimFloat.eqb a b = true.

(** A [PostgrestError], the [error] of a backend answer. *)
Record PgError := mkPgError {
  message : jsstring;
  code : jsstring
}.

End Js.

Import Js.

(** ** The estimate editor: [EstimateDetailModal.tsx] *)

Module EstimateDetailModal.

(** [type LineItem] *)
Record LineItem := mkLineItem {
  id : jsstring;
  line_order : nat;
  item_type : jsstring;
  description : jsstring;
  quantity : number;
  unit_price : number;
  line_total : number;
  part_id : option jsstring;
  equipment_id : option jsstring;
  labor_hours : option number;
  labor_rate : option number
}.

(** [type EstimateDetail], with the date columns that [select('*')] brings
    along and that the handlers write ([conversion_date], [sent_date],
    [accepted_date], [rejected_date]); the joined [customers] and
    [profiles] are only displayed and left out. *)
Record EstimateDetail := mkEstimate {
  est_id : jsstring;
  estimate_number : jsstring;
  customer_id : jsstring;
  job_title : jsstring;
  job_description : jsstring;
  site_location : jsstring;
  status : jsstring;
  subtotal : number;
  tax_rate : number;
  tax_amount : number;
  total_amount : number;
  estimate_date : jsstring;
  expiration_date : jsstring;
  notes : jsstring;
  terms_conditions : jsstring;
  created_at : jsstring;
  converted_to_ticket_id : option jsstring;
  converted_to_project_id : option jsstring;
  conversion_date : option jsstring;
  sent_date : option jsstring;
  accepted_date : option jsstring;
  rejected_date : option jsstring
}.

(** The object [calculateTotals] returns. *)
Record Totals := mkTotals {
  t_subtotal : number;
  t_discount : number;
  t_taxAmount : number;
  t_total : number
}.

Definition is_discount (item : LineItem) : bool :=
  str_eqb (item_type item) (lit "discount").

(** The callback of the first [reduce]. *)
Definition subtotal_step (sum : number) (item : LineItem) : number :=
  if negb (is_discount item) then (sum + Number (line_total item))%float else sum.

(** The callback of the second [reduce]. *)
Definition discount_step (sum : number) (item : LineItem) : number :=
  if is_discount item then (sum + PrimFloat.abs (Number (line_total item)))%float
  else sum.

(** [calculateTotals], with the component state it reads as arguments. *)
Definition calculateTotals (lineItems : list LineItem)
  (estimate : option EstimateDetail) : Totals :=
  let subtotal := fold_left subtotal_step lineItems 0%float in
  let discount := fold_left discount_step lineItems 0%float in
  let taxAmount :=
    ((subtotal - discount) * (or_zero (option_map tax_rate estimate) / 100))%float in
  let total := (subtotal - discount + taxAmount)%float in
  {| t_subtotal := subtotal; t_discount := discount;
     t_taxAmount := taxAmount; t_total := total |}.

(** *** Local edits of the line-item list *)

(** A [field] of [keyof LineItem] together with a [value] of the type the
    field is declared with: the form passes the string of a select or of a
    text input for [item_type] and [description], and a number
    ([parseFloat(...) || default]) for [quantity] and [unit_price]. *)
Inductive Assignment :=
| set_id (value : jsstring)
| set_line_order (value : nat)
| set_item_type (value : jsstring)
| set_description (value : jsstring)
| set_quantity (value : number)
| set_unit_price (value : number)
| set_line_total (value : number)
| set_part_id (value : option jsstring)
| set_equipment_id (value : option jsstring)
| set_labor_hours (value : option number)
| set_labor_rate (value : option number).

(** [{ ...item, [field]: value }] *)
Definition assign (a : Assignment) (item : LineItem) : LineItem :=
  let '(mkLineItem i lo ty de qu up lt pa eq lh lr) := item in
  match a with
  | set_id v => mkLineItem v lo ty de qu up lt pa eq lh lr
  | set_line_order v => mkLineItem i v ty de qu up lt pa eq lh lr
  | set_item_type v => mkLineItem i lo v de qu up lt pa eq lh lr
  | set_description v => mkLineItem i lo ty v qu up lt pa eq lh lr
  | set_quantity v => mkLineItem i lo ty de v up lt pa eq lh lr
  | set_unit_price v => mkLineItem i lo ty de qu v lt pa eq lh lr
  | set_line_total v => mkLineItem i lo ty de qu up v pa eq lh lr
  | set_part_id v => mkLineItem i lo ty de qu up lt v eq lh lr
  | set_equipment_id v => mkLineItem i lo ty de qu up lt pa v lh lr
  | set_labor_hours v => mkLineItem i lo ty de qu up lt pa eq v lr
  | set_labor_rate v => mkLineItem i lo ty de qu up lt pa eq lh v
  end.

(** [field === 'quantity' || field === 'unit_price'] *)
Definition is_quantity_or_unit_price (a : Assignment) : bool :=
  match a with
  | set_quantity _ | set_unit_price _ => true
  | _ => false
  end.

(** The callback of the [map] in [updateLineItem]. *)
Definition updateLineItem_item (id0 : jsstring) (a : Assignment)
  (item : LineItem) : LineItem :=
  if str_eqb (id item) id0 then
    let updated := assign a item in
    if is_quantity_or_unit_price a then
      assign (set_line_total
                (Number (quantity updated) * Number (unit_price updated))%float)
             updated
    else updated
  else item.

(** [updateLineItem(id, field, value)]: the list handed to [setLineItems]. *)
Definition updateLineItem (id0 : jsstring) (a : Assignment)
  (lineItems : list LineItem) : list LineItem :=
  map (updateLineItem_item id0 a) lineItems.

(** [addLineItem()]; [uuid] is the result of [crypto.randomUUID()]. *)
Definition addLineItem (uuid : jsstring) (lineItems : list LineItem)
  : list LineItem :=
  lineItems ++
  [ {| id := uuid; line_order := List.length lineItems; item_type := lit "labor";
       description := []; quantity := 1%float; unit_price := 0%float;
       line_total := 0%float; part_id := None; equipment_id := None;
       labor_hours := None; labor_rate := None |} ].

(** [removeLineItem(id)]: the list state after the call. *)
Definition removeLineItem (id0 : jsstring) (lineItems : list LineItem)
  : list LineItem :=
  if 1 <? List.length lineItems
  then filter (fun item => negb (str_eqb (id item) id0)) lineItems
  else lineItems.

(** *** The hosted backend, as the modal uses it

    The tables live in a hosted relational store that is no part of the
    repository.  What is assumed of it: a call that answers with an error
    changes nothing; [update] and [delete] act on the rows the [eq] filter
    selects; [insert] appends the rows under ids of the backend's choice;
    [single()] answers with error PGRST116 unless exactly one row is
    selected; [order('line_order')] sorts stably. *)

(** The signed-in [profile] of [useAuth()]. *)
Record Profile := mkProfile {
  profile_id : jsstring
}.

(** An object of the array handed to [from('estimate_line_items').insert]. *)
Record LineItemRow := mkLineItemRow {
  row_estimate_id : jsstring;
  row_line_order : nat;
  row_item_type : jsstring;
  row_description : jsstring;
  row_quantity : number;
  row_unit_price : number;
  row_line_total : number;
  row_part_id : option jsstring;
  row_equipment_id : option jsstring;
  row_labor_hours : option number;
  row_labor_rate : option number
}.

Record StoredLineItem := mkStoredLineItem {
  stored_id : jsstring;
  stored_row : LineItemRow
}.

(** The object handed to [from('tickets').insert]. *)
Record TicketInsert := mkTicketInsert {
  tk_customer_id : jsstring;
  tk_title : jsstring;
  tk_description : jsstring;
  tk_ticket_type : jsstring;
  tk_status : jsstring;
  tk_priority : jsstring;
  tk_created_by : jsstring;
  tk_assigned_to : jsstring
}.

Record StoredTicket := mkStoredTicket {
  ticket_id : jsstring;
  ticket_number : option jsstring;
  ticket_row : TicketInsert
}.

(** The object handed to [from('projects').insert]. *)
Record ProjectInsert := mkProjectInsert {
  pj_customer_id : jsstring;
  pj_name : jsstring;
  pj_description : jsstring;
  pj_status : jsstring;
  pj_budget_amount : number;
  pj_project_manager_id : jsstring
}.

Record StoredProject := mkStoredProject {
  project_id : jsstring;
  project_row : ProjectInsert
}.

(** The object handed to [from('estimates').update] by [handleSave]. *)
Record HeaderPatch := mkHeaderPatch {
  p_job_title : jsstring;
  p_job_description : jsstring;
  p_site_location : jsstring;
  p_tax_rate : number;
  p_subtotal : number;
  p_tax_amount : number;
  p_total_amount : number;
  p_notes : jsstring;
  p_terms_conditions : jsstring
}.

(** The [updateData] object of [handleStatusChange]; a date whose key is
    not set is [None]. *)
Record StatusUpdate := mkStatusUpdate {
  su_status : jsstring;
  su_sent_date : option jsstring;
  su_accepted_date : option jsstring;
  su_rejected_date : option jsstring
}.

(** The objects handed to [from('estimates').update]. *)
Inductive EstimatePatch :=
| Header (h : HeaderPatch)
| ConvertedToTicket (new_ticket_id conversion : jsstring)
| ConvertedToProject (new_project_id conversion : jsstring)
| StatusChange (data : StatusUpdate).

(** A column after an update that sets it only when its key is present. *)
Definition set_if_present (new old : option jsstring) : option jsstring :=
  match new with
  | Some v => Some v
  | None => old
  end.

Definition apply_patch (p : EstimatePatch) (e : EstimateDetail) : EstimateDetail :=
  let '(mkEstimate i en cu jt jd sl st su tr ta to ed xd no tc ca ct cp cd sd ad rd) := e in
  match p with
  | Header h =>
      mkEstimate i en cu (p_job_title h) (p_job_description h) (p_site_location h)
        st (p_subtotal h) (p_tax_rate h) (p_tax_amount h) (p_total_amount h)
        ed xd (p_notes h) (p_terms_conditions h) ca ct cp cd sd ad rd
  | ConvertedToTicket t d =>
      mkEstimate i en cu jt jd sl (lit "converted") su tr ta to ed xd no tc ca
        (Some t) cp (Some d) sd ad rd
  | ConvertedToProject t d =>
      mkEstimate i en cu jt jd sl (lit "converted") su tr ta to ed xd no tc ca
        ct (Some t) (Some d) sd ad rd
  | StatusChange u =>
      mkEstimate i en cu jt jd sl (su_status u) su tr ta to ed xd no tc ca ct cp cd
        (set_if_present (su_sent_date u) sd)
        (set_if_present (su_accepted_date u) ad)
        (set_if_present (su_rejected_date u) rd)
  end.

(** The calls the modal issues against the backend. *)
Inductive Request :=
| UpdateEstimate (eq_id : jsstring) (patch : EstimatePatch)
| DeleteLineItems (eq_estimate_id : jsstring)
| InsertLineItems (rows : list LineItemRow)
| InsertTicket (t : TicketInsert)
| InsertProject (p : ProjectInsert)
| SelectEstimate (eq_id : jsstring)
| SelectLineItems (eq_estimate_id : jsstring).

Record DB := mkDB {
  estimates : list EstimateDetail;
  estimate_line_items : list StoredLineItem;
  tickets : list StoredTicket;
  projects : list StoredProject
}.

(** What the outside world answers during one run of a handler. *)
Record Env := mkEnv {
  fails : Request -> option PgError;
  new_id : nat -> jsstring;
  new_ticket_number : option jsstring;
  confirm_answer : bool;
  now : jsstring
}.

(** The component state ([useState], props and context). *)
Record Ui := mkUi {
  estimateId : option jsstring;
  profile : option Profile;
  loading : bool;
  saving : bool;
  converting : bool;
  editing : bool;
  estimate : option EstimateDetail;
  lineItems : list LineItem
}.

Record World := mkWorld {
  db : DB;
  calls : list Request;
  alerts : list jsstring;
  ui : Ui
}.

(** *** Handlers: state and exceptions *)

Inductive Completion (A : Type) :=
| Normal (a : A)
| Thrown (e : PgError).

Arguments Normal {A} a.
Arguments Thrown {A} e.

Definition Action (A : Type) : Type := World -> Completion A * World.

Definition ret {A : Type} (a : A) : Action A := fun w => (Normal a, w).

Definition bind {A B : Type} (c : Action A) (k : A -> Action B) : Action B :=
  fun w =>
    match c w with
    | (Normal a, w') => k a w'
    | (Thrown e, w') => (Thrown e, w')
    end.

Definition throw {A : Type} (e : PgError) : Action A := fun w => (Thrown e, w).

Declare Scope action_scope.
Delimit Scope action_scope with action.
Bind Scope action_scope with Action.
Notation "x <- c ;; k" := (bind c (fun x => k))
  (at level 61, c at next level, right associativity) : action_scope.
Notation "c ;; k" := (bind c (fun _ => k))
  (at level 61, right associativity) : action_scope.
Open Scope action_scope.

(** [try { body } catch (error) { handler error } finally { fin }] *)
Definition try_catch_finally (body : Action unit)
  (handler : PgError -> Action unit) (fin : Action unit) : Action unit :=
  fun w =>
    match body w with
    | (Normal _, w1) => fin w1
    | (Thrown e, w1) =>
        match handler e w1 with
        | (Normal _, w2) => fin w2
        | (Thrown e', w2) =>
            match fin w2 with
            | (Normal _, w3) => (Thrown e', w3)
            | r => r
            end
        end
    end.

(** [if (error) throw error] *)
Definition throw_if_error {A : Type} (r : PgError + A) : Action A :=
  match r with
  | inl e => throw e
  | inr a => ret a
  end.

Definition modify (f : World -> World) : Action unit := fun w => (Normal tt, f w).

Definition modify_ui (f : Ui -> Ui) : Action unit :=
  modify (fun w => mkWorld (db w) (calls w) (alerts w) (f (ui w))).

Definition alert (msg : jsstring) : Action unit :=
  modify (fun w => mkWorld (db w) (calls w) (alerts w ++ [msg]) (ui w)).

Definition setLoading (b : bool) : Action unit :=
  modify_ui (fun u => mkUi (estimateId u) (profile u) b (saving u) (converting u)
                        (editing u) (estimate u) (lineItems u)).
Definition setSaving (b : bool) : Action unit :=
  modify_ui (fun u => mkUi (estimateId u) (profile u) (loading u) b (converting u)
                        (editing u) (estimate u) (lineItems u)).
Definition setConverting (b : bool) : Action unit :=
  modify_ui (fun u => mkUi (estimateId u) (profile u) (loading u) (saving u) b
                        (editing u) (estimate u) (lineItems u)).
Definition setEditing (b : bool) : Action unit :=
  modify_ui (fun u => mkUi (estimateId u) (profile u) (loading u) (saving u)
                        (converting u) b (estimate u) (lineItems u)).
Definition setEstimate (e : option EstimateDetail) : Action unit :=
  modify_ui (fun u => mkUi (estimateId u) (profile u) (loading u) (saving u)
                        (converting u) (editing u) e (lineItems u)).
Definition setLineItems (l : list LineItem) : Action unit :=
  modify_ui (fun u => mkUi (estimateId u) (profile u) (loading u) (saving u)
                        (converting u) (editing u) (estimate u) l).

(** One awaited call: it is recorded, and it either answers with the error
    the outside world decides on, or runs against the tables. *)
Definition backend {A : Type} (env : Env) (r : Request)
  (run : DB -> (PgError + A) * DB) : Action (PgError + A) :=
  fun w =>
    match fails env r with
    | Some e => (Normal (inl e), mkWorld (db w) (calls w ++ [r]) (alerts w) (ui w))
    | None =>
        let '(a, d) := run (db w) in
        (Normal a, mkWorld d (calls w ++ [r]) (alerts w) (ui w))
    end.

Definition updateEstimate (env : Env) (i : jsstring) (p : EstimatePatch)
  : Action (PgError + unit) :=
  backend env (UpdateEstimate i p) (fun d =>
    (inr tt,
     mkDB (map (fun e => if str_eqb (est_id e) i then apply_patch p e else e)
               (estimates d))
          (estimate_line_items d) (tickets d) (projects d))).

Definition deleteLineItems (env : Env) (i : jsstring) : Action (PgError + unit) :=
  backend env (DeleteLineItems i) (fun d =>
    (inr tt,
     mkDB (estimates d)
          (filter (fun r => negb (str_eqb (row_estimate_id (stored_row r)) i))
                  (estimate_line_items d))
          (tickets d) (projects d))).

Definition insertLineItems (env : Env) (rows : list LineItemRow)
  : Action (PgError + list StoredLineItem) :=
  backend env (InsertLineItems rows) (fun d =>
    let stored := map_index (fun k r => mkStoredLineItem (new_id env k) r) rows in
    (inr stored,
     mkDB (estimates d) (estimate_line_items d ++ stored) (tickets d) (projects d))).

Definition insertTicket (env : Env) (t : TicketInsert)
  : Action (PgError + StoredTicket) :=
  backend env (InsertTicket t) (fun d =>
    let stored := mkStoredTicket (new_id env 0) (new_ticket_number env) t in
    (inr stored,
     mkDB (estimates d) (estimate_line_items d) (tickets d ++ [stored]) (projects d))).

Definition insertProject (env : Env) (p : ProjectInsert)
  : Action (PgError + StoredProject) :=
  backend env (InsertProject p) (fun d =>
    let stored := mkStoredProject (new_id env 0) p in
    (inr stored,
     mkDB (estimates d) (estimate_line_items d) (tickets d) (projects d ++ [stored]))).

Definition PGRST116 : PgError :=
  mkPgError (lit "JSON object requested, multiple (or no) rows returned")
            (lit "PGRST116").

Definition selectEstimate (env : Env) (i : jsstring)
  : Action (PgError + EstimateDetail) :=
  backend env (SelectEstimate i) (fun d =>
    match filter (fun e => str_eqb (est_id e) i) (estimates d) with
    | [e] => (inr e, d)
    | _ => (inl PGRST116, d)
    end).

(** A stored row as the [LineItem] the select answers with. *)
Definition as_LineItem (r : StoredLineItem) : LineItem :=
  let row := stored_row r in
  {| id := stored_id r; line_order := row_line_order row;
     item_type := row_item_type row; description := row_description row;
     quantity := row_quantity row; unit_price := row_unit_price row;
     line_total := row_line_total row; part_id := row_part_id row;
     equipment_id := row_equipment_id row; labor_hours := row_labor_hours row;
     labor_rate := row_labor_rate row |}.

Fixpoint insert_by_line_order (x : LineItem) (l : list LineItem) : list LineItem :=
  match l with
  | [] => [x]
  | y :: l' =>
      if line_order x <=? line_order y then x :: l
      else y :: insert_by_line_order x l'
  end.

Definition order_by_line_order (l : list LineItem) : list LineItem :=
  fold_right insert_by_line_order [] l.

Definition selectLineItems (env : Env) (i : jsstring)
  : Action (PgError + list LineItem) :=
  backend env (SelectLineItems i) (fun d =>
    (inr (order_by_line_order
            (map as_LineItem
               (filter (fun r => str_eqb (row_estimate_id (stored_row r)) i)
                       (estimate_line_items d)))),
     d)).

(** *** The handlers

    A handler reads [estimate], [lineItems] and [profile] as they were
    when the component rendered: they are read once, at its start. *)

(** [loadEstimateDetails]: both selects are issued before either answer is
    looked at ([Promise.all]); the [catch] only logs. *)
Definition loadEstimateDetails (env : Env) : Action unit :=
  fun w =>
    match estimateId (ui w) with
    | None => (Normal tt, w)
    | Some i =>
        if negb (truthy_str i) then (Normal tt, w)
        else
          (setLoading true ;;
           try_catch_finally
             (estimateRes <- selectEstimate env i ;;
              lineItemsRes <- selectLineItems env i ;;
              data <- throw_if_error estimateRes ;;
              items <- throw_if_error lineItemsRes ;;
              setEstimate (Some data) ;;
              setLineItems items)
             (fun _ => ret tt)
             (setLoading false)) w
    end.

(** The callback of the [filter] in [handleSave]:
    [item.description && item.description.trim() !== ''], as a truth value. *)
Definition has_description (item : LineItem) : bool :=
  truthy_str (description item) && negb (str_eqb (trim (description item)) []).

(** The callback of the [map] in [handleSave]. *)
Definition to_row (estimate_id : jsstring) (index : nat) (item : LineItem)
  : LineItemRow :=
  {| row_estimate_id := estimate_id;
     row_line_order := index;
     row_item_type := item_type item;
     row_description := description item;
     row_quantity := quantity item;
     row_unit_price := unit_price item;
     row_line_total := line_total item;
     row_part_id := or_null (part_id item);
     row_equipment_id := or_null (equipment_id item);
     row_labor_hours :=
       if str_eqb (item_type item) (lit "labor") then Some (quantity item) else None;
     row_labor_rate :=
       if str_eqb (item_type item) (lit "labor") then Some (unit_price item) else None
  |}.

Definition lineItemsToInsert (estimate_id : jsstring) (lineItems : list LineItem)
  : list LineItemRow :=
  map_index (to_row estimate_id) (filter has_description lineItems).

(** The object [handleSave] hands to [from('estimates').update]. *)
Definition header_patch (e : EstimateDetail) (totals : Totals) : HeaderPatch :=
  {| p_job_title := job_title e;
     p_job_description := job_description e;
     p_site_location := site_location e;
     p_tax_rate := tax_rate e;
     p_subtotal := t_subtotal totals;
     p_tax_amount := t_taxAmount totals;
     p_total_amount := t_total totals;
     p_notes := notes e;
     p_terms_conditions := terms_conditions e |}.

Definition handleSave (env : Env) : Action unit :=
  fun w =>
    match estimate (ui w) with
    | None => (Normal tt, w)
    | Some e =>
        let items := lineItems (ui w) in
        (setSaving true ;;
         try_catch_finally
           (let totals := calculateTotals items (Some e) in
            estimateError <- updateEstimate env (est_id e) (Header (header_patch e totals)) ;;
            throw_if_error estimateError ;;
            deleteError <- deleteLineItems env (est_id e) ;;
            throw_if_error deleteError ;;
            let toInsert := lineItemsToInsert (est_id e) items in
            (if 0 <? List.length toInsert
             then (inserted <- insertLineItems env toInsert ;;
                   throw_if_error inserted ;;
                   ret tt)
             else ret tt) ;;
            setEditing false ;;
            loadEstimateDetails env)
           (fun _ => alert (lit "Failed to save estimate. Please try again."))
           (setSaving false)) w
    end.

(** [ticketData.ticket_number || ticketData.id] *)
Definition ticket_label (t : StoredTicket) : jsstring :=
  match or_null (ticket_number t) with
  | Some n => n
  | None => ticket_id t
  end.

(** The object [handleConvertToTicket] hands to [from('tickets').insert]. *)
Definition ticket_of_estimate (e : EstimateDetail) (p : Profile) : TicketInsert :=
  {| tk_customer_id := customer_id e;
     tk_title := job_title e;
     tk_description := or_default (job_description e) (lit "Converted from estimate");
     tk_ticket_type := lit "SVC";
     tk_status := lit "open";
     tk_priority := lit "normal";
     tk_created_by := profile_id p;
     tk_assigned_to := profile_id p |}.

Definition handleConvertToTicket (env : Env) : Action unit :=
  fun w =>
    match estimate (ui w), profile (ui w) with
    | Some e, Some p =>
        if negb (confirm_answer env) then (Normal tt, w)
        else
          (setConverting true ;;
           try_catch_finally
             (ticketRes <- insertTicket env (ticket_of_estimate e p) ;;
              ticketData <- throw_if_error ticketRes ;;
              updateError <- updateEstimate env (est_id e)
                               (ConvertedToTicket (ticket_id ticketData) (now env)) ;;
              throw_if_error updateError ;;
              alert (lit "Successfully converted to ticket #" ++ ticket_label ticketData) ;;
              loadEstimateDetails env)
             (fun _ => alert (lit "Failed to convert to ticket. Please try again."))
             (setConverting false)) w
    | _, _ => (Normal tt, w)
    end.

(** The object [handleConvertToProject] hands to [from('projects').insert]. *)
Definition project_of_estimate (e : EstimateDetail) (p : Profile) : ProjectInsert :=
  {| pj_customer_id := customer_id e;
     pj_name := job_title e;
     pj_description := or_default (job_description e) [];
     pj_status := lit "planning";
     pj_budget_amount := total_amount e;
     pj_project_manager_id := profile_id p |}.

Definition handleConvertToProject (env : Env) : Action unit :=
  fun w =>
    match estimate (ui w), profile (ui w) with
    | Some e, Some p =>
        if negb (confirm_answer env) then (Normal tt, w)
        else
          (setConverting true ;;
           try_catch_finally
             (projectRes <- insertProject env (project_of_estimate e p) ;;
              projectData <- throw_if_error projectRes ;;
              updateError <- updateEstimate env (est_id e)
                               (ConvertedToProject (project_id projectData) (now env)) ;;
              throw_if_error updateError ;;
              alert (lit "Successfully converted to project " ++ [34%N]
                     ++ pj_name (project_row projectData) ++ [34%N]) ;;
              loadEstimateDetails env)
             (fun _ => alert (lit "Failed to convert to project. Please try again."))
             (setConverting false)) w
    | _, _ => (Normal tt, w)
    end.

(** The condition under which the two conversion buttons are rendered:
    [estimate.status === 'accepted' && !estimate.converted_to_ticket_id
     && !estimate.converted_to_project_id]. *)
Definition shows_convert_buttons (e : EstimateDetail) : bool :=
  str_eqb (status e) (lit "accepted")
  && match or_null (converted_to_ticket_id e) with Some _ => false | None => true end
  && match or_null (converted_to_project_id e) with Some _ => false | None => true end.

(** *** Catalog selections *)

(** An element of [laborRates]. *)
Record LaborRate := mkLaborRate {
  key : jsstring;
  rate_name : jsstring;
  rate : number
}.

(** The active row of [labor_rate_profile], as far as [loadData] reads it. *)
Record LaborRateProfile := mkLaborRateProfile {
  standard_rate : number;
  after_hours_rate : number;
  emergency_rate : number
}.

(** The [rates] array [loadData] builds from the active profile. *)
Definition rates_of_profile (p : LaborRateProfile) : list LaborRate :=
  [ mkLaborRate (lit "standard") (lit "Standard Rate") (Number (standard_rate p));
    mkLaborRate (lit "after_hours") (lit "After-Hours Rate")
                (Number (after_hours_rate p));
    mkLaborRate (lit "emergency") (lit "Emergency Rate") (Number (emergency_rate p)) ].

(** A row of [parts], as far as [handlePartSelect] reads it; a null [cost]
    is [None]. *)
Record Part := mkPart {
  pt_id : jsstring;
  pt_name : jsstring;
  pt_cost : option number
}.

(** A row of [equipment], as far as [handleEquipmentSelect] reads it. *)
Record Equipment := mkEquipment {
  eqp_id : jsstring;
  manufacturer : jsstring;
  model_number : jsstring
}.

(** [handleLaborRateSelect(itemId, rateKey)]: the list state after the call. *)
Definition handleLaborRateSelect (laborRates : list LaborRate)
  (itemId rateKey : jsstring) (lineItems : list LineItem) : list LineItem :=
  match find (fun r => str_eqb (key r) rateKey) laborRates with
  | Some r =>
      map (fun item =>
             if str_eqb (id item) itemId then
               {| id := id item; line_order := line_order item;
                  item_type := item_type item;
                  description := rate_name r;
                  quantity := quantity item;
                  unit_price := rate r;
                  line_total := (Number (quantity item) * Number (rate r))%float;
                  part_id := part_id item; equipment_id := equipment_id item;
                  labor_hours := labor_hours item;
                  labor_rate := Some (rate r) |}
             else item)
          lineItems
  | None => lineItems
  end.

(** [handlePartSelect(itemId, partId)]: the list state after the call. *)
Definition handlePartSelect (parts : list Part) (itemId partId : jsstring)
  (lineItems : list LineItem) : list LineItem :=
  match find (fun p => str_eqb (pt_id p) partId) parts with
  | Some part =>
      map (fun item =>
             if str_eqb (id item) itemId then
               let unitPrice := Number (or_zero (pt_cost part)) in
               {| id := id item; line_order := line_order item;
                  item_type := item_type item;
                  description := pt_name part;
                  quantity := quantity item;
                  unit_price := unitPrice;
                  line_total := (Number (quantity item) * unitPrice)%float;
                  part_id := Some partId; equipment_id := equipment_id item;
                  labor_hours := labor_hours item; labor_rate := labor_rate item |}
             else item)
          lineItems
  | None => lineItems
  end.

(** [handleEquipmentSelect(itemId, equipmentId)]: the list state after the
    call. *)
Definition handleEquipmentSelect (equipment : list Equipment)
  (itemId equipmentId : jsstring) (lineItems : list LineItem) : list LineItem :=
  match find (fun e => str_eqb (eqp_id e) equipmentId) equipment with
  | Some equip =>
      map (fun item =>
             if str_eqb (id item) itemId then
               {| id := id item; line_order := line_order item;
                  item_type := item_type item;
                  description := manufacturer equip ++ lit " " ++ model_number equip;
                  quantity := quantity item;
                  unit_price := 0%float;
                  line_total := 0%float;
                  part_id := part_id item; equipment_id := Some equipmentId;
                  labor_hours := labor_hours item; labor_rate := labor_rate item |}
             else item)
          lineItems
  | None => lineItems
  end.

(** The catalogs [loadData] keeps in the component state. *)
Record Catalog := mkCatalog {
  laborRates : list LaborRate;
  parts : list Part;
  equipment : list Equipment
}.

(** The edits the rendered form wires to the line-item list: the type
    select, the description input, the quantity and rate inputs, the three
    catalog selects, "Add Line Item" and "Remove". *)
Inductive Edit :=
| EditType (itemId value : jsstring)
| EditDescription (itemId value : jsstring)
| EditQuantity (itemId : jsstring) (value : number)
| EditUnitPrice (itemId : jsstring) (value : number)
| SelectLaborRate (itemId rateKey : jsstring)
| SelectPart (itemId partId : jsstring)
| SelectEquipment (itemId equipmentId : jsstring)
| AddLineItem (uuid : jsstring)
| RemoveLineItem (itemId : jsstring).

Definition apply_edit (c : Catalog) (ed : Edit) (lineItems : list LineItem)
  : list LineItem :=
  match ed with
  | EditType i v => updateLineItem i (set_item_type v) lineItems
  | EditDescription i v => updateLineItem i (set_description v) lineItems
  | EditQuantity i v => updateLineItem i (set_quantity v) lineItems
  | EditUnitPrice i v => updateLineItem i (set_unit_price v) lineItems
  | SelectLaborRate i k => handleLaborRateSelect (laborRates c) i k lineItems
  | SelectPart i p => handlePartSelect (parts c) i p lineItems
  | SelectEquipment i e => handleEquipmentSelect (equipment c) i e lineItems
  | AddLineItem u => addLineItem u lineItems
  | RemoveLineItem i => removeLineItem i lineItems
  end.

(** *** Cancel, status changes and the footer *)

(** [handleCancel]: the reload is started and not awaited; its effects are
    the same. *)
Definition handleCancel (env : Env) : Action unit :=
  setEditing false ;; loadEstimateDetails env.

(** The argument of [handleStatusChange]. *)
Inductive NewStatus := sent | accepted | rejected.

Definition status_name (s : NewStatus) : jsstring :=
  match s with
  | sent => lit "sent"
  | accepted => lit "accepted"
  | rejected => lit "rejected"
  end.

(** The [updateData] object [handleStatusChange] builds. *)
Definition updateData (newStatus : NewStatus) (now0 : jsstring) : StatusUpdate :=
  match newStatus with
  | sent => mkStatusUpdate (status_name newStatus) (Some now0) None None
  | accepted => mkStatusUpdate (status_name newStatus) None (Some now0) None
  | rejected => mkStatusUpdate (status_name newStatus) None None (Some now0)
  end.

(** [handleStatusChange(newStatus)] *)
Definition handleStatusChange (env : Env) (newStatus : NewStatus) : Action unit :=
  fun w =>
    match estimate (ui w) with
    | None => (Normal tt, w)
    | Some e =>
        try_catch_finally
          (let data := updateData newStatus (now env) in
           error <- updateEstimate env (est_id e) (StatusChange data) ;;
           throw_if_error error ;;
           loadEstimateDetails env ;;
           alert (lit "Estimate " ++ status_name newStatus ++ lit " successfully"))
          (fun _ => alert (lit "Failed to mark estimate as " ++ status_name newStatus
                           ++ lit ". Please try again."))
          (ret tt) w
    end.

(** The buttons on the left of the footer. *)
Inductive FooterButton :=
| MarkAsSent
| Accept
| Reject
| ConvertToTicket
| ConvertToProject.

(** The buttons the footer renders for [estimate], left to right. *)
Definition footer_buttons (e : EstimateDetail) : list FooterButton :=
  (if str_eqb (status e) (lit "draft") then [MarkAsSent] else [])
  ++ (if str_eqb (status e) (lit "sent") || str_eqb (status e) (lit "viewed")
      then [Accept; Reject] else [])
  ++ (if shows_convert_buttons e then [ConvertToTicket; ConvertToProject] else []).

(** The status change a footer button asks for, if it asks for one. *)
Definition button_status (b : FooterButton) : option NewStatus :=
  match b with
  | MarkAsSent => Some sent
  | Accept => Some accepted
  | Reject => Some rejected
  | ConvertToTicket | ConvertToProject => None
  end.

End EstimateDetailModal.

(** ** The ticket editor: [TicketDetailModal.tsx] *)

Module TicketDetailModal.

Section HandleUpdate.

(** [Database['public']['Tables']['tickets']['Row']] is declared in
    [lib/database.types]; the handler reads one column of it. *)
Variable Ticket : Type.
Variable completed_date : Ticket -> option jsstring.

(** The global [parseFloat]. *)
Variable parseFloat : jsstring -> number.

(** The [updates] object. [upd_completed_date] is [None] when the key is
    not set. *)
Record Updates := mkUpdates {
  upd_status : jsstring;
  upd_hours_onsite : option number;
  upd_completed_date : option jsstring
}.

(** The component state and props the handler reads. *)
Record Ui := mkUi {
  ticketId : jsstring;
  ticket : option Ticket;
  status : jsstring;
  hoursOnsite : jsstring;
  saving : bool
}.

(** What the handler does to the outside, in order. *)
Inductive Effect :=
| UpdateTicket (eq_id : jsstring) (updates : Updates)
| Alert (msg : jsstring)
| OnUpdate
| OnClose.

(** How the awaited update ends: the promise resolves with an [error]
    (or none), or it rejects with a value whose [message] may be missing. *)
Inductive Answer :=
| Resolved (error : option PgError)
| Rejected (error_message : option jsstring).

Definition permission_message : jsstring :=
  lit "You do not have permission to update this ticket. Please contact your administrator.".

Definition generic_message : jsstring :=
  lit "Failed to update ticket. Please try again.".

(** The value of [errorMessage] when [alert(errorMessage)] is reached. *)
Definition errorMessage (error : PgError) : jsstring :=
  let msg := message error in
  if truthy_str msg then
    if includes (lit "permission denied") msg || includes (lit "policy") msg
       || includes (lit "Row level security") msg
    then permission_message
    else if includes (lit "JSON object requested, multiple") msg
            || includes (lit "0 rows") msg
    then permission_message
    else if includes (lit "Cannot change status of billed ticket") msg
    then lit "Cannot change status of billed ticket. Invoice must be voided first."
    else if includes (lit "Cannot mark non-billable ticket") msg
    then lit "Cannot mark non-billable ticket as ready to invoice."
    else if str_eqb (code error) (lit "23502")
    then lit "Missing required field. Please ensure all required fields are filled."
    else if str_eqb (code error) (lit "23503")
    then lit "Invalid reference. Please check that all linked records exist."
    else if str_eqb (code error) (lit "PGRST116")
    then permission_message
    else lit "Error: " ++ msg
  else generic_message.

(** The [updates] object as built before the call. *)
Definition build_updates (now : jsstring) (t : Ticket) (u : Ui) : Updates :=
  {| upd_status := status u;
     upd_hours_onsite :=
       if truthy_str (hoursOnsite u) then Some (parseFloat (hoursOnsite u)) else None;
     upd_completed_date :=
       if str_eqb (status u) (lit "completed")
          && match or_null (completed_date t) with Some _ => false | None => true end
       then Some now else None |}.

Definition setSaving (b : bool) (u : Ui) : Ui :=
  mkUi (ticketId u) (ticket u) (status u) (hoursOnsite u) b.

(** [handleUpdate]: the effects in order and the state after it.  The
    [finally] block runs on every path that entered the [try]. *)
Definition handleUpdate (now : jsstring) (answer : Answer) (u : Ui)
  : list Effect * Ui :=
  match ticket u with
  | None => ([], u)
  | Some t =>
      let call := UpdateTicket (ticketId u) (build_updates now t u) in
      match answer with
      | Resolved (Some error) =>
          ([call; Alert (errorMessage error)], setSaving false u)
      | Resolved None =>
          ([call; OnUpdate; OnClose], setSaving false u)
      | Rejected m =>
          ([call;
            Alert (match or_null m with Some s => s | None => generic_message end)],
           setSaving false u)
      end
  end.

End HandleUpdate.

Arguments mkUi {Ticket} ticketId ticket status hoursOnsite saving.
Arguments ticketId {Ticket} u.
Arguments ticket {Ticket} u.
Arguments status {Ticket} u.
Arguments hoursOnsite {Ticket} u.
Arguments saving {Ticket} u.
Arguments setSaving {Ticket} b u.
Arguments build_updates {Ticket} completed_date parseFloat now t u.
Arguments handleUpdate {Ticket} completed_date parseFloat now answer u.

End TicketDetailModal.

(** * Vocabulary of the properties and concrete worlds *)

Module EstimateTerms.

Import EstimateDetailModal.

(** The sum of a list of numbers, added up from zero in list order. *)
Definition sum (l : list number) : number := fold_left PrimFloat.add l 0%float.

Definition non_discount_totals (items : list LineItem) : list number :=
  map line_total (filter (fun item => negb (is_discount item)) items).

Definition discount_magnitudes (items : list LineItem) : list number :=
  map (fun item => PrimFloat.abs (line_total item)) (filter is_discount items).

(** An estimate that has only the fields the examples look at filled in. *)
Definition blank_estimate (i : jsstring) (rate : number) : EstimateDetail :=
  {| est_id := i; estimate_number := lit "EST-1"; customer_id := lit "cust-1";
     job_title := lit "Sign install"; job_description := []; site_location := [];
     status := lit "draft"; subtotal := 0%float; tax_rate := rate;
     tax_amount := 0%float; total_amount := 0%float; estimate_date := [];
     expiration_date := []; notes := []; terms_conditions := []; created_at := [];
     converted_to_ticket_id := None; converted_to_project_id := None;
     conversion_date := None; sent_date := None; accepted_date := None;
     rejected_date := None |}.

Definition plain_item (i ty de : jsstring) (qty price total : number) : LineItem :=
  {| id := i; line_order := 0; item_type := ty; description := de;
     quantity := qty; unit_price := price; line_total := total;
     part_id := None; equipment_id := None; labor_hours := None;
     labor_rate := None |}.

(** [{labor, qty=2, price=100}, {discount, line_total=-20}] *)
Definition example_items : list LineItem :=
  [ plain_item (lit "a") (lit "labor") (lit "Install")
      2%float 100%float (2 * 100)%float;
    plain_item (lit "b") (lit "discount") (lit "Loyalty")
      1%float (-20)%float (-20)%float ].

(** The items of [l] that carry the id [id0]. *)
Definition with_id (id0 : jsstring) (l : list LineItem) : list LineItem :=
  filter (fun item => str_eqb (id item) id0) l.

Definition without_id (id0 : jsstring) (l : list LineItem) : list LineItem :=
  filter (fun item => negb (str_eqb (id item) id0)) l.

(** The fields whose assignment changes [line_total]. *)
Definition touches_line_total (a : Assignment) : bool :=
  match a with
  | set_quantity _ | set_unit_price _ | set_line_total _ => true
  | _ => false
  end.

(** The calls that only read. *)
Definition is_select (r : Request) : Prop :=
  match r with
  | SelectEstimate _ | SelectLineItems _ => True
  | _ => False
  end.

(** The ids the backend of the examples hands out: "row-0", "row-1", ... *)
Definition row_id (k : nat) : jsstring := lit "row-" ++ [N.of_nat (48 + k)].

Definition refused : PgError :=
  mkPgError (lit "permission denied for table estimates") (lit "42501").

(** An outside world in which the calls [rejects] picks out fail. *)
Definition env_rejecting (rejects : Request -> bool) : Env :=
  {| fails := fun r => if rejects r then Some refused else None;
     new_id := row_id;
     new_ticket_number := None;
     confirm_answer := true;
     now := lit "2024-05-01T12:00:00.000Z" |}.

Definition calm : Env := env_rejecting (fun _ => false).

Definition bracket : LineItem :=
  plain_item (lit "n2") (lit "parts") (lit "Bracket") 1%float 15%float 15%float.

Definition stored_bracket (i e : jsstring) : StoredLineItem :=
  mkStoredLineItem i (to_row e 0 bracket).

(** The estimate ["e1"] with its job title edited to [title]. *)
Definition edited_estimate (title : jsstring) : EstimateDetail :=
  apply_patch (Header (mkHeaderPatch title [] [] 10%float 0%float 0%float 0%float [] []))
              (blank_estimate (lit "e1") 10%float).

(** The estimate ["e1"] at 10% tax with one stored line item, opened in the
    editor with the line items [items] and the job title [title]. *)
Definition editing_world (title : jsstring) (items : list LineItem) : World :=
  {| db := {| estimates := [blank_estimate (lit "e1") 10%float];
              estimate_line_items := [stored_bracket (lit "row-9") (lit "e1")];
              tickets := []; projects := [] |};
     calls := [];
     alerts := [];
     ui := {| estimateId := Some (lit "e1");
              profile := Some (mkProfile (lit "user-1"));
              loading := false; saving := false; converting := false;
              editing := true;
              estimate := Some (edited_estimate title);
              lineItems := items |} |}.

(** The list the editor holds after "Add Line Item" and typing 2 hours at
    100 an hour into the new labor line, without picking a labor rate: the
    description of the new line is still empty. *)
Definition undescribed_labor : list LineItem :=
  updateLineItem (lit "n1") (set_unit_price 100%float)
    (updateLineItem (lit "n1") (set_quantity 2%float)
       (addLineItem (lit "n1") [bracket])).

(** The header update [handleSave] issues. *)
Definition save_update (e : EstimateDetail) (items : list LineItem) : Request :=
  UpdateEstimate (est_id e) (Header (header_patch e (calculateTotals items (Some e)))).

Definition save_failed : jsstring := lit "Failed to save estimate. Please try again.".

(** The header of every row of [estimates] the save addresses, rewritten. *)
Definition with_saved_header (e : EstimateDetail) (items : list LineItem)
  (rows : list EstimateDetail) : list EstimateDetail :=
  map (fun r =>
         if str_eqb (est_id r) (est_id e)
         then apply_patch (Header (header_patch e (calculateTotals items (Some e)))) r
         else r)
      rows.

(** The items whose description has something left after trimming. *)
Definition described (items : list LineItem) : list LineItem :=
  filter (fun item => negb (str_eqb (trim (description item)) [])) items.

(** What the row at position [k] holds of the item it is made from. *)
Definition row_of (estimate_id : jsstring) (k : nat) (item : LineItem)
  (row : LineItemRow) : Prop :=
  row_estimate_id row = estimate_id
  /\ row_line_order row = k
  /\ row_item_type row = item_type item
  /\ row_description row = description item
  /\ row_quantity row = quantity item
  /\ row_unit_price row = unit_price item
  /\ row_line_total row = line_total item
  /\ (item_type item = lit "labor" ->
      row_labor_hours row = Some (quantity item)
      /\ row_labor_rate row = Some (unit_price item))
  /\ (item_type item <> lit "labor" ->
      row_labor_hours row = None /\ row_labor_rate row = None).

(** The rows of the other estimates. *)
Definition rows_of_others (estimate_id : jsstring) (rows : list StoredLineItem)
  : list StoredLineItem :=
  filter (fun r => negb (str_eqb (row_estimate_id (stored_row r)) estimate_id)) rows.

Definition stored_as (env : Env) (rows : list LineItemRow) : list StoredLineItem :=
  map_index (fun k r => mkStoredLineItem (new_id env k) r) rows.

Definition delete_rejected : Env :=
  env_rejecting (fun r => match r with DeleteLineItems _ => true | _ => false end).

(** The estimate ["e1"] with the given status, total and ticket reference. *)
Definition estimate_in (st : jsstring) (total : number) (ticket : option jsstring)
  (converted_on : option jsstring) : EstimateDetail :=
  {| est_id := lit "e1"; estimate_number := lit "EST-1"; customer_id := lit "cust-1";
     job_title := lit "Sign install"; job_description := lit "Two-sided pylon sign";
     site_location := []; status := st; subtotal := total; tax_rate := 0%float;
     tax_amount := 0%float; total_amount := total; estimate_date := [];
     expiration_date := []; notes := []; terms_conditions := []; created_at := [];
     converted_to_ticket_id := ticket; converted_to_project_id := None;
     conversion_date := converted_on; sent_date := None; accepted_date := None;
     rejected_date := None |}.

(** The modal showing [shown] while the table holds [stored] and the
    tickets [tks]. *)
Definition viewing_world (stored shown : EstimateDetail) (tks : list StoredTicket)
  : World :=
  {| db := {| estimates := [stored]; estimate_line_items := [];
              tickets := tks; projects := [] |};
     calls := [];
     alerts := [];
     ui := {| estimateId := Some (lit "e1");
              profile := Some (mkProfile (lit "user-1"));
              loading := false; saving := false; converting := false;
              editing := false; estimate := Some shown; lineItems := [] |} |}.

Definition first_ticket : StoredTicket :=
  mkStoredTicket (lit "T1") None
    (ticket_of_estimate (estimate_in (lit "accepted") 500%float None None)
                        (mkProfile (lit "user-2"))).

(** The row after another session converted the estimate into ticket T1. *)
Definition already_converted : EstimateDetail :=
  estimate_in (lit "converted") 500%float (Some (lit "T1"))
              (Some (lit "2024-04-01T09:00:00.000Z")).

(** The copy this modal loaded before that. *)
Definition stale_copy : EstimateDetail :=
  estimate_in (lit "accepted") 500%float None None.

Definition stamp_ticket (env : Env) (e : EstimateDetail) : Request :=
  UpdateEstimate (est_id e) (ConvertedToTicket (new_id env 0) (now env)).

Definition stamp_project (env : Env) (e : EstimateDetail) : Request :=
  UpdateEstimate (est_id e) (ConvertedToProject (new_id env 0) (now env)).

(** The rows of [estimates] a conversion addresses, rewritten by [p]. *)
Definition with_patch (p : EstimatePatch) (e : EstimateDetail)
  (rows : list EstimateDetail) : list EstimateDetail :=
  map (fun r => if str_eqb (est_id r) (est_id e) then apply_patch p r else r) rows.

(** What the ticket takes from the estimate and the profile. *)
Definition ticket_seeded (e : EstimateDetail) (p : Profile) (t : TicketInsert) : Prop :=
  tk_customer_id t = customer_id e
  /\ tk_title t = job_title e
  /\ tk_description t
     = match job_description e with
       | [] => lit "Converted from estimate"
       | _ :: _ => job_description e
       end
  /\ tk_ticket_type t = lit "SVC"
  /\ tk_status t = lit "open"
  /\ tk_priority t = lit "normal"
  /\ tk_created_by t = profile_id p
  /\ tk_assigned_to t = profile_id p.

(** What the project takes from the estimate and the profile. *)
Definition project_seeded (e : EstimateDetail) (p : Profile) (j : ProjectInsert) : Prop :=
  pj_customer_id j = customer_id e
  /\ pj_name j = job_title e
  /\ pj_description j = job_description e
  /\ pj_status j = lit "planning"
  /\ pj_budget_amount j = total_amount e
  /\ pj_project_manager_id j = profile_id p.

End EstimateTerms.

Module TicketTerms.

Import TicketDetailModal.

(** [msg] has [pat] as a substring. *)
Definition contains (msg pat : jsstring) : Prop :=
  exists pre post, msg = pre ++ pat ++ post.

(** A ticket row, as far as the handler reads it. *)
Definition open_ticket : option jsstring := None.

Definition denied : PgError :=
  mkPgError (lit "new row violates row-level security policy for table tickets")
            (lit "42501").

Definition ticket_ui : Ui (option jsstring) :=
  {| ticketId := lit "t-7"; ticket := Some open_ticket; status := lit "completed";
     hoursOnsite := lit "2.5"; saving := false |}.

End TicketTerms.

Module MoreTerms.

Import EstimateDetailModal EstimateTerms.

(** [item.line_total] is the product the editor computes. *)
Definition priced (item : LineItem) : Prop :=
  line_total item = (quantity item * unit_price item)%float.

(** The item with the sign of its line total flipped. *)
Definition flip_total (item : LineItem) : LineItem :=
  assign (set_line_total (- line_total item)%float) item.

(** The number is neither an infinity nor NaN. *)
Definition finite (x : number) : Prop :=
  match Prim2SF x with
  | S754_zero _ | S754_finite _ _ _ => True
  | S754_infinity _ | S754_nan => False
  end.

(** The id an edit addresses; "Add Line Item" addresses none. *)
Definition edit_target (ed : Edit) : option jsstring :=
  match ed with
  | EditType i _ | EditDescription i _ | EditQuantity i _ | EditUnitPrice i _
  | SelectLaborRate i _ | SelectPart i _ | SelectEquipment i _
  | RemoveLineItem i => Some i
  | AddLineItem _ => None
  end.

(** The id [crypto.randomUUID()] hands to "Add Line Item" is new to the
    list. *)
Definition fresh_for (ed : Edit) (l : list LineItem) : Prop :=
  match ed with
  | AddLineItem u => ~ In u (map id l)
  | _ => True
  end.

(** A run of edits, first to last. *)
Fixpoint apply_edits (c : Catalog) (eds : list Edit) (l : list LineItem)
  : list LineItem :=
  match eds with
  | [] => l
  | ed :: eds' => apply_edits c eds' (apply_edit c ed l)
  end.

Fixpoint fresh_along (c : Catalog) (eds : list Edit) (l : list LineItem) : Prop :=
  match eds with
  | [] => True
  | ed :: eds' => fresh_for ed l /\ fresh_along c eds' (apply_edit c ed l)
  end.

Definition is_equipment_select (ed : Edit) : bool :=
  match ed with
  | SelectEquipment _ _ => true
  | _ => false
  end.

(** The assignments that leave the id and the description alone. *)
Definition keeps_id_and_description (a : Assignment) : bool :=
  match a with
  | set_id _ | set_description _ => false
  | _ => true
  end.

(** A catalog for the examples. *)
Definition shop : Catalog :=
  {| laborRates := rates_of_profile (mkLaborRateProfile 95%float 140%float 190%float);
     parts := [ mkPart (lit "p1") (lit "Anchor bolt") (Some 4.5%float);
                mkPart (lit "p2") (lit "Sample") None ];
     equipment := [ mkEquipment (lit "q1") (lit "Genie") (lit "S-45") ] |}.

(** The component state with [loading], [estimate] and [lineItems] set. *)
Definition loaded_ui (u : Ui) (b : bool) (e : option EstimateDetail)
  (l : list LineItem) : Ui :=
  mkUi (estimateId u) (profile u) b (saving u) (converting u) (editing u) e l.

(** The rows of [estimates] the filter [eq('id', i)] selects. *)
Definition estimates_with_id (i : jsstring) (d : DB) : list EstimateDetail :=
  filter (fun e => str_eqb (est_id e) i) (estimates d).

(** The line items the select for estimate [i] answers with. *)
Definition selected_line_items (i : jsstring) (d : DB) : list LineItem :=
  order_by_line_order
    (map as_LineItem
       (filter (fun r => str_eqb (row_estimate_id (stored_row r)) i)
               (estimate_line_items d))).

(** The world after a load that issued its two selects. *)
Definition after_selects (i : jsstring) (w : World) (u : Ui) : World :=
  mkWorld (db w) (calls w ++ [SelectEstimate i; SelectLineItems i]) (alerts w) u.

(** Both selects answer, the first with exactly one row. *)
Definition load_succeeds (env : Env) (i : jsstring) (d : DB) (row : EstimateDetail)
  : Prop :=
  fails env (SelectEstimate i) = None
  /\ fails env (SelectLineItems i) = None
  /\ estimates_with_id i d = [row].

(** A select answers with an error, or the first one finds no row or
    several. *)
Definition load_fails (env : Env) (i : jsstring) (d : DB) : Prop :=
  fails env (SelectEstimate i) <> None
  \/ fails env (SelectLineItems i) <> None
  \/ List.length (estimates_with_id i d) <> 1.

(** The item at position [k] of the saved ones, as it comes back from the
    table. *)
Definition reloaded (env : Env) (k : nat) (item : LineItem) : LineItem :=
  {| id := new_id env k; line_order := k; item_type := item_type item;
     description := description item; quantity := quantity item;
     unit_price := unit_price item; line_total := line_total item;
     part_id := or_null (part_id item); equipment_id := or_null (equipment_id item);
     labor_hours :=
       if str_eqb (item_type item) (lit "labor") then Some (quantity item) else None;
     labor_rate :=
       if str_eqb (item_type item) (lit "labor") then Some (unit_price item) else None
  |}.

(** The rows of the estimate [i]. *)
Definition rows_of (i : jsstring) (rows : list StoredLineItem) : list StoredLineItem :=
  filter (fun r => str_eqb (row_estimate_id (stored_row r)) i) rows.

(** The rows of [estimates] other than those with id [i]. *)
Definition other_estimates (i : jsstring) (rows : list EstimateDetail)
  : list EstimateDetail :=
  filter (fun e => negb (str_eqb (est_id e) i)) rows.

(** The writes of a save went through: the header update, the delete and,
    when there is a row to insert, the insert. *)
Definition writes_succeed (env : Env) (e : EstimateDetail) (items : list LineItem)
  : Prop :=
  fails env (save_update e items) = None
  /\ fails env (DeleteLineItems (est_id e)) = None
  /\ (lineItemsToInsert (est_id e) items <> [] ->
      fails env (InsertLineItems (lineItemsToInsert (est_id e) items)) = None).

(** The world a save hands to the reload once its writes went through. *)
Definition saved_world (env : Env) (w : World) (e : EstimateDetail) : World :=
  let items := lineItems (ui w) in
  let rows := lineItemsToInsert (est_id e) items in
  mkWorld
    (mkDB (with_saved_header e items (estimates (db w)))
          (rows_of_others (est_id e) (estimate_line_items (db w)) ++ stored_as env rows)
          (tickets (db w)) (projects (db w)))
    (calls w ++ [save_update e items; DeleteLineItems (est_id e)]
             ++ match rows with [] => [] | _ :: _ => [InsertLineItems rows] end)
    (alerts w)
    (mkUi (estimateId (ui w)) (profile (ui w)) (loading (ui w)) true
          (converting (ui w)) false (estimate (ui w)) (lineItems (ui w))).

(** [setSaving(false)] on a world. *)
Definition saving_off (w : World) : World :=
  mkWorld (db w) (calls w) (alerts w)
          (mkUi (estimateId (ui w)) (profile (ui w)) (loading (ui w)) false
                (converting (ui w)) (editing (ui w)) (estimate (ui w))
                (lineItems (ui w))).

Definition insert_rejected : Env :=
  env_rejecting (fun r => match r with InsertLineItems _ => true | _ => false end).

Definition selects_rejected : Env :=
  env_rejecting (fun r => match r with SelectEstimate _ => true | _ => false end).

Definition ticket_failed : jsstring :=
  lit "Failed to convert to ticket. Please try again.".

Definition project_failed : jsstring :=
  lit "Failed to convert to project. Please try again.".

(** [setConverting(false)] on a world. *)
Definition converting_off (w : World) : World :=
  mkWorld (db w) (calls w) (alerts w)
          (mkUi (estimateId (ui w)) (profile (ui w)) (loading (ui w)) (saving (ui w))
                false (editing (ui w)) (estimate (ui w)) (lineItems (ui w))).

(** The ticket the backend stores for the estimate. *)
Definition new_ticket (env : Env) (e : EstimateDetail) (p : Profile) : StoredTicket :=
  mkStoredTicket (new_id env 0) (new_ticket_number env) (ticket_of_estimate e p).

Definition new_project (env : Env) (e : EstimateDetail) (p : Profile) : StoredProject :=
  mkStoredProject (new_id env 0) (project_of_estimate e p).

Definition stamp_rejected : Env :=
  env_rejecting (fun r => match r with UpdateEstimate _ _ => true | _ => false end).

(** No conversion reference is set (null, undefined and [''] alike). *)
Definition unconverted (e : EstimateDetail) : Prop :=
  or_null (converted_to_ticket_id e) = None
  /\ or_null (converted_to_project_id e) = None.

(** The world a conversion into a ticket hands to the reload. *)
Definition ticket_world (env : Env) (w : World) (e : EstimateDetail) (p : Profile)
  : World :=
  mkWorld
    (mkDB (with_patch (ConvertedToTicket (new_id env 0) (now env)) e (estimates (db w)))
          (estimate_line_items (db w))
          (tickets (db w) ++ [new_ticket env e p])
          (projects (db w)))
    (calls w ++ [InsertTicket (ticket_of_estimate e p); stamp_ticket env e])
    (alerts w ++ [lit "Successfully converted to ticket #"
                  ++ ticket_label (new_ticket env e p)])
    (mkUi (estimateId (ui w)) (profile (ui w)) (loading (ui w)) (saving (ui w)) true
          (editing (ui w)) (estimate (ui w)) (lineItems (ui w))).

(** The world a conversion into a project hands to the reload. *)
Definition project_world (env : Env) (w : World) (e : EstimateDetail) (p : Profile)
  : World :=
  mkWorld
    (mkDB (with_patch (ConvertedToProject (new_id env 0) (now env)) e (estimates (db w)))
          (estimate_line_items (db w))
          (tickets (db w))
          (projects (db w) ++ [new_project env e p]))
    (calls w ++ [InsertProject (project_of_estimate e p); stamp_project env e])
    (alerts w ++ [lit "Successfully converted to project " ++ [34%N]
                  ++ pj_name (project_of_estimate e p) ++ [34%N]])
    (mkUi (estimateId (ui w)) (profile (ui w)) (loading (ui w)) (saving (ui w)) true
          (editing (ui w)) (estimate (ui w)) (lineItems (ui w))).

(** The update [handleStatusChange] issues. *)
Definition status_update (env : Env) (e : EstimateDetail) (s : NewStatus) : Request :=
  UpdateEstimate (est_id e) (StatusChange (updateData s (now env))).

(** The columns of a row other than the status and the three status
    dates. *)
Definition other_columns (e : EstimateDetail) :=
  (est_id e, estimate_number e, customer_id e, job_title e, job_description e,
   site_location e, subtotal e, tax_rate e, tax_amount e, total_amount e,
   estimate_date e, expiration_date e, notes e, terms_conditions e, created_at e,
   converted_to_ticket_id e, converted_to_project_id e, conversion_date e).

(** The date column that belongs to a status. *)
Definition date_of (s : NewStatus) (e : EstimateDetail) : option jsstring :=
  match s with
  | sent => sent_date e
  | accepted => accepted_date e
  | rejected => rejected_date e
  end.

(** The estimate ["e1"], sent and awaiting an answer, as stored and as
    shown. *)
Definition sent_estimate : EstimateDetail :=
  estimate_in (lit "sent") 500%float None None.

Definition status_changed (s : NewStatus) : jsstring :=
  lit "Estimate " ++ status_name s ++ lit " successfully".

Definition status_failed (s : NewStatus) : jsstring :=
  lit "Failed to mark estimate as " ++ status_name s ++ lit ". Please try again.".

(** The buttons the footer is expected to render once the status is [s]. *)
Definition buttons_after (s : NewStatus) : list FooterButton :=
  match s with
  | sent => [Accept; Reject]
  | accepted => [ConvertToTicket; ConvertToProject]
  | rejected => []
  end.

End MoreTerms.

Module MoreTicketTerms.

Import TicketDetailModal.

Definition is_update_call (x : Effect) : bool :=
  match x with
  | UpdateTicket _ _ => true
  | _ => false
  end.

Definition is_alert (x : Effect) : bool :=
  match x with
  | Alert _ => true
  | _ => false
  end.

End MoreTicketTerms.

(** * Properties *)

(** ** Strings and numbers *)

Module JsFacts.

Lemma str_eqb_refl (a : jsstring) : str_eqb a a = true.
Proof.
  induction a as [|x a IH]; simpl; [reflexivity|].
  now rewrite N.eqb_refl.
Qed.

Lemma str_eqb_eq (a b : jsstring) : str_eqb a b = true <-> a = b.
Proof.
  split.
  - revert b; induction a as [|x a IH]; intros [|y b]; simpl; try discriminate.
    + reflexivity.
    + intros H. apply andb_prop in H as [Hx Hab].
      apply N.eqb_eq in Hx. f_equal; auto.
  - intros ->. apply str_eqb_refl.
Qed.

Lemma str_eqb_neq (a b : jsstring) : str_eqb a b = false <-> a <> b.
Proof.
  rewrite <- str_eqb_eq. destruct (str_eqb a b); split; congruence.
Qed.

Lemma startsWith_prefix (pat s : jsstring) :
  startsWith pat s = true <-> exists post, s = pat ++ post.
Proof.
  revert s; induction pat as [|p pat IH]; intros s; simpl.
  - split; [exists s; reflexivity | reflexivity].
  - destruct s as [|c s].
    + split; [discriminate | intros [post H]; discriminate].
    + rewrite andb_true_iff, N.eqb_eq, IH. split.
      * intros [-> [post ->]]. exists post. reflexivity.
      * intros [post H]. injection H as -> ->. split; [reflexivity | now exists post].
Qed.

(** [includes] finds exactly the strings that have [pat] as a substring. *)
Lemma includes_substring (pat s : jsstring) :
  includes pat s = true <-> exists pre post, s = pre ++ pat ++ post.
Proof.
  induction s as [|c s IH].
  - simpl includes. rewrite orb_false_r, startsWith_prefix. split.
    + intros [post H]. exists [], post. exact H.
    + intros [pre [post H]]. destruct pre; simpl in H.
      * now exists post.
      * discriminate.
  - simpl includes. rewrite orb_true_iff, startsWith_prefix, IH. split.
    + intros [[post H] | [pre [post H]]].
      * exists [], post. exact H.
      * exists (c :: pre), post. simpl. now f_equal.
    + intros [pre [post H]]. destruct pre as [|c' pre]; simpl in H.
      * left. now exists post.
      * right. injection H as _ H. now exists pre, post.
Qed.

(** Trimming strips white space at both ends and nothing else. *)
Example trim_example :
  trim (lit "  Bracket, 2 in " ++ [160%N; 10%N]) = lit "Bracket, 2 in"
  /\ trim (lit "   " ++ [8232%N; 65279%N]) = []
  /\ trim [] = [].
Proof. repeat split. Qed.

Example includes_example :
  includes (lit "policy") (lit "violates row-level security policy for table") = true
  /\ includes (lit "Row level security") (lit "row-level security") = false
  /\ includes [] [] = true.
Proof. repeat split. Qed.

Lemma map_index_from_length {A B : Type} (f : nat -> A -> B) (l : list A) :
  forall i, List.length (map_index_from f i l) = List.length l.
Proof. induction l as [|x l IH]; intros i; simpl; [reflexivity | now rewrite IH]. Qed.

Lemma map_index_from_nth {A B : Type} (f : nat -> A -> B) (l : list A) :
  forall i k, nth_error (map_index_from f i l) k = option_map (f (i + k)) (nth_error l k).
Proof.
  induction l as [|x l IH]; intros i [|k]; simpl; try reflexivity.
  - now rewrite Nat.add_0_r.
  - rewrite IH. now rewrite Nat.add_succ_r.
Qed.

(** *** Signed zeros and NaN *)

Local Open Scope float_scope.

Lemma eqb_zero_cases (r : float) :
  PrimFloat.eqb r 0 = true -> r = 0 \/ r = -0.
Proof.
  rewrite FloatAxioms.eqb_spec. intros H.
  destruct (Prim2SF r) as [[|]| | |] eqn:E; try discriminate.
  - right. apply Prim2SF_inj. rewrite E. reflexivity.
  - left. apply Prim2SF_inj. rewrite E. reflexivity.
  - unfold SFeqb in H; simpl in H. destruct s; discriminate.
  - unfold SFeqb in H; simpl in H. destruct s; discriminate.
Qed.

Lemma SFeqb_refl (x : spec_float) : x <> S754_nan -> SFeqb x x = true.
Proof.
  destruct x as [s|s| |s m e]; intros H; unfold SFeqb; simpl.
  - reflexivity.
  - now destruct s.
  - congruence.
  - rewrite Z.compare_refl. destruct s; now rewrite Pos.compare_cont_refl.
Qed.

(** A number that is at least zero is truthy, +0 or -0. *)
Lemma or_zero_nonneg (r : number) :
  PrimFloat.leb 0 r = true -> or_zero (Some r) = r \/ (r = -0 /\ or_zero (Some r) = 0).
Proof.
  intros Hle. unfold or_zero, truthy_num, PrimFloat.is_nan.
  destruct (PrimFloat.eqb r 0) eqn:E0; simpl.
  - destruct (eqb_zero_cases r E0) as [-> | ->]; [left | right]; auto.
  - destruct (PrimFloat.eqb r r) eqn:Err; simpl; [now left|].
    exfalso. rewrite leb_spec in Hle. rewrite FloatAxioms.eqb_spec in Err.
    rewrite SFeqb_refl in Err; [discriminate|].
    intros Hn. rewrite Hn in Hle. discriminate.
Qed.

Lemma same_number_refl (a : float) : same_number a a.
Proof. now left. Qed.

(** Multiplying by +0 or by -0 gives numbers that compare equal. *)
Lemma mul_signed_zero (x : float) : same_number (x * 0) (x * -0).
Proof.
  destruct (Prim2SF x) as [s|s| |s m e] eqn:E.
  - right. rewrite FloatAxioms.eqb_spec, !mul_spec, E. reflexivity.
  - left. apply Prim2SF_inj. rewrite !mul_spec, E. reflexivity.
  - left. apply Prim2SF_inj. rewrite !mul_spec, E. reflexivity.
  - right. rewrite FloatAxioms.eqb_spec, !mul_spec, E. reflexivity.
Qed.

Lemma add_mul_signed_zero (x : float) : same_number (x + x * 0) (x + x * -0).
Proof.
  destruct (Prim2SF x) as [s|s| |s m e] eqn:E.
  - right. rewrite FloatAxioms.eqb_spec, !add_spec, !mul_spec, E. now destruct s.
  - left. apply Prim2SF_inj. rewrite !add_spec, !mul_spec, E. reflexivity.
  - left. apply Prim2SF_inj. rewrite !add_spec, !mul_spec, E. reflexivity.
  - left. apply Prim2SF_inj. rewrite !add_spec, !mul_spec, E. reflexivity.
Qed.

End JsFacts.

(** ** Totals *)

Module TotalsFacts.

Import EstimateDetailModal EstimateTerms JsFacts.
Local Open Scope float_scope.

Lemma is_discount_iff (item : LineItem) :
  is_discount item = true <-> item_type item = lit "discount".
Proof. apply str_eqb_eq. Qed.

Lemma fold_subtotal_step (items : list LineItem) :
  forall acc,
    fold_left subtotal_step items acc
    = fold_left PrimFloat.add (non_discount_totals items) acc.
Proof.
  unfold non_discount_totals.
  induction items as [|item items IH]; intros acc; simpl; [reflexivity|].
  unfold subtotal_step at 2. destruct (is_discount item); simpl; apply IH.
Qed.

Lemma fold_discount_step (items : list LineItem) :
  forall acc,
    fold_left discount_step items acc
    = fold_left PrimFloat.add (discount_magnitudes items) acc.
Proof.
  unfold discount_magnitudes.
  induction items as [|item items IH]; intros acc; simpl; [reflexivity|].
  unfold discount_step at 2. destruct (is_discount item); simpl; apply IH.
Qed.

(** C1. For every list of line items and every tax rate that is at least
    zero, [calculateTotals] returns: as subtotal the sum of [line_total]
    over the items whose type is not 'discount'; as discount the sum of
    [|line_total|] over the items whose type is 'discount'; as tax amount
    [(subtotal - discount) * (taxRate / 100)]; as total
    [subtotal - discount + taxAmount].  Tax amount and total are the numbers
    the formula gives, bit for bit unless the tax rate is the negative zero,
    for which [tax_rate || 0] computes with the positive one and a zero
    result may differ in sign.  On the items
    [{labor, qty=2, price=100}, {discount, line_total=-20}] with tax rate 10
    it returns 200, 20, 18 and 198. *)
Theorem calculateTotals_correct :
  (forall (items : list LineItem) (e : EstimateDetail),
      PrimFloat.leb 0 (tax_rate e) = true ->
      let t := calculateTotals items (Some e) in
      t_subtotal t = sum (non_discount_totals items)
      /\ t_discount t = sum (discount_magnitudes items)
      /\ same_number (t_taxAmount t)
           ((t_subtotal t - t_discount t) * (tax_rate e / 100))
      /\ t_total t = t_subtotal t - t_discount t + t_taxAmount t
      /\ same_number (t_total t)
           (t_subtotal t - t_discount t
            + (t_subtotal t - t_discount t) * (tax_rate e / 100))
      /\ (tax_rate e <> -0 ->
          t_taxAmount t = (t_subtotal t - t_discount t) * (tax_rate e / 100)))
  /\ calculateTotals example_items (Some (blank_estimate (lit "e1") 10))
     = {| t_subtotal := 200; t_discount := 20; t_taxAmount := 18; t_total := 198 |}.
Proof.
  split; [|reflexivity].
  intros items e Hrate t.
  split; [apply fold_subtotal_step|].
  split; [apply fold_discount_step|].
  subst t. unfold calculateTotals. cbn [t_subtotal t_discount t_taxAmount t_total].
  cbn [option_map].
  set (x := fold_left subtotal_step items 0 - fold_left discount_step items 0).
  destruct (or_zero_nonneg _ Hrate) as [E | [E0 E]]; rewrite E.
  - repeat split; apply same_number_refl.
  - rewrite E0. change (0 / 100) with 0. change (-0 / 100) with (-0).
    split; [apply mul_signed_zero|].
    split; [reflexivity|].
    split; [apply add_mul_signed_zero|].
    intros Hnz. now contradiction Hnz.
Qed.

Lemma calculateTotals_correct_witness :
  PrimFloat.leb 0 (tax_rate (blank_estimate (lit "e1") 10)) = true
  /\ t_total (calculateTotals example_items (Some (blank_estimate (lit "e1") 10)))
     = t_subtotal (calculateTotals example_items (Some (blank_estimate (lit "e1") 10)))
       - t_discount (calculateTotals example_items (Some (blank_estimate (lit "e1") 10)))
       + t_taxAmount (calculateTotals example_items (Some (blank_estimate (lit "e1") 10))).
Proof.
  split; [reflexivity|].
  apply (proj1 calculateTotals_correct example_items (blank_estimate (lit "e1") 10)).
  reflexivity.
Defined.

End TotalsFacts.

(** ** Local edits *)

Module EditorFacts.

Import EstimateDetailModal EstimateTerms JsFacts TotalsFacts.

Lemma with_without_length (id0 : jsstring) (l : list LineItem) :
  List.length (with_id id0 l) + List.length (without_id id0 l) = List.length l.
Proof.
  unfold with_id, without_id.
  induction l as [|item l IH]; simpl; [reflexivity|].
  destruct (str_eqb (id item) id0); simpl; lia.
Qed.

(** When the ids of a list are pairwise distinct, each id is carried by at
    most one item. *)
Lemma distinct_ids_with_id (id0 : jsstring) (l : list LineItem) :
  NoDup (map id l) -> List.length (with_id id0 l) <= 1.
Proof.
  unfold with_id. induction l as [|item l IH]; simpl; intros Hnd; [lia|].
  inversion Hnd as [|x xs Hnotin Hnd']; subst.
  destruct (str_eqb (id item) id0) eqn:E; [|now apply IH].
  apply str_eqb_eq in E. subst id0. simpl.
  assert (Hnone : filter (fun item0 => str_eqb (id item0) (id item)) l = []).
  { clear IH Hnd Hnd'. induction l as [|y l IHl]; [reflexivity|].
    simpl. destruct (str_eqb (id y) (id item)) eqn:Ey.
    - apply str_eqb_eq in Ey. exfalso. apply Hnotin. left. exact Ey.
    - apply IHl. intros Hin. apply Hnotin. right. exact Hin. }
  rewrite Hnone. simpl. lia.
Qed.

(** The items that are kept are the items of the list that do not carry
    the id, in the order of the list. *)
Lemma without_id_In (id0 : jsstring) (l : list LineItem) (item : LineItem) :
  In item (without_id id0 l) <-> In item l /\ id item <> id0.
Proof.
  unfold without_id. rewrite filter_In, negb_true_iff, str_eqb_neq. reflexivity.
Qed.

(** C6. The ids of the line items are pairwise distinct (they are row ids
    of the backend and fresh UUIDs).  On every such list,
    [removeLineItem(itemId)] removes the item with that id when the list
    has more than one item - the other items stay, in their order, and the
    list gets shorter by at most one - and changes nothing when only one
    item remains: a non-empty list never drops below one item. *)
Theorem removeLineItem_keeps_one :
  forall (id0 : jsstring) (l : list LineItem),
    NoDup (map id l) ->
    (1 < List.length l ->
     removeLineItem id0 l = without_id id0 l
     /\ (forall item, In item (removeLineItem id0 l) <-> In item l /\ id item <> id0)
     /\ List.length l - 1 <= List.length (removeLineItem id0 l)
     /\ ((exists item, In item l /\ id item = id0) ->
         List.length (removeLineItem id0 l) = List.length l - 1))
    /\ (List.length l <= 1 -> removeLineItem id0 l = l)
    /\ (1 <= List.length l -> 1 <= List.length (removeLineItem id0 l)).
Proof.
  intros id0 l Hnd. unfold removeLineItem.
  pose proof (with_without_length id0 l) as Hlen.
  pose proof (distinct_ids_with_id id0 l Hnd) as Hone.
  destruct (1 <? List.length l) eqn:E.
  - apply Nat.ltb_lt in E. fold (without_id id0 l).
    split; [|split]; intros; try lia.
    split; [reflexivity|]. split; [intros item; apply without_id_In|].
    split; [lia|].
    intros (item & Hin & Hid).
    assert (Hsome : 1 <= List.length (with_id id0 l)).
    { unfold with_id.
      assert (Hw : In item (filter (fun item0 => str_eqb (id item0) id0) l)).
      { apply filter_In. split; [exact Hin | now apply str_eqb_eq]. }
      destruct (filter (fun item0 => str_eqb (id item0) id0) l); [contradiction|].
      simpl. lia. }
    lia.
  - apply Nat.ltb_ge in E. split; [|split]; intros; try lia; reflexivity.
Qed.

Lemma removeLineItem_keeps_one_witness :
  1 <= List.length (removeLineItem (lit "b") example_items).
Proof.
  apply (removeLineItem_keeps_one (lit "b") example_items).
  - repeat constructor; simpl; intros H;
      repeat (destruct H as [H | H]; [discriminate|]); exact H.
  - vm_compute. lia.
Defined.

(** C10. [updateLineItem(id, field, value)] leaves every item with another
    id as it is, at its position.  On an item with that id it recomputes
    [line_total] as quantity times unit price when the field is [quantity]
    or [unit_price], and only then: for every other field the item is the
    old one with that field set, so that updating a field other than
    [line_total] itself - the type or the description, say - leaves
    [line_total] unchanged.  So an item whose type is changed to 'discount'
    keeps its [line_total], and the reducers of [calculateTotals] then add
    its magnitude to the discount and nothing to the subtotal. *)
Theorem updateLineItem_frame :
  forall (id0 : jsstring) (a : Assignment) (l : list LineItem),
    List.length (updateLineItem id0 a l) = List.length l
    /\ (forall k item, nth_error l k = Some item -> id item <> id0 ->
          nth_error (updateLineItem id0 a l) k = Some item)
    /\ (forall k item, nth_error l k = Some item -> id item = id0 ->
          exists item', nth_error (updateLineItem id0 a l) k = Some item'
            /\ (is_quantity_or_unit_price a = true ->
                  line_total item'
                  = (quantity (assign a item) * unit_price (assign a item))%float)
            /\ (is_quantity_or_unit_price a = false -> item' = assign a item)
            /\ (touches_line_total a = false ->
                  line_total item' = line_total item)
            /\ (a = set_item_type (lit "discount") ->
                  forall sum,
                    discount_step sum item'
                    = (sum + PrimFloat.abs (line_total item))%float
                    /\ subtotal_step sum item' = sum)).
Proof.
  intros id0 a l. unfold updateLineItem.
  split; [apply length_map|].
  split.
  - intros k item Hk Hid. rewrite nth_error_map, Hk. simpl.
    unfold updateLineItem_item.
    apply str_eqb_neq in Hid. now rewrite Hid.
  - intros k item Hk Hid. rewrite nth_error_map, Hk. simpl.
    eexists. split; [reflexivity|].
    unfold updateLineItem_item.
    apply str_eqb_eq in Hid. rewrite Hid.
    destruct item as [i lo ty de qu up lt pa eq lh lr].
    repeat split.
    + intros Ha. rewrite Ha. destruct a; try discriminate; reflexivity.
    + intros Ha. now rewrite Ha.
    + intros Ha. destruct a; try discriminate; reflexivity.
    + subst a. reflexivity.
    + subst a. reflexivity.
Qed.

Lemma updateLineItem_frame_witness :
  nth_error (updateLineItem (lit "a") (set_item_type (lit "discount")) example_items) 1
  = nth_error example_items 1.
Proof.
  apply (proj1 (proj2 (updateLineItem_frame (lit "a")
                         (set_item_type (lit "discount")) example_items)) 1).
  - reflexivity.
  - vm_compute. discriminate.
Defined.

End EditorFacts.

(** ** Saving *)

Module SaveFacts.

Import EstimateDetailModal EstimateTerms JsFacts TotalsFacts EditorFacts.

(** Reloading reads: it changes no table and shows no alert. *)
Lemma loadEstimateDetails_reads (env : Env) (w : World) :
  exists w' loads,
    loadEstimateDetails env w = (Normal tt, w')
    /\ db w' = db w /\ alerts w' = alerts w
    /\ calls w' = calls w ++ loads /\ Forall is_select loads.
Proof.
  unfold loadEstimateDetails.
  destruct (estimateId (ui w)) as [i|].
  2:{ exists w, []. rewrite app_nil_r. repeat split; constructor. }
  destruct (truthy_str i); simpl.
  2:{ exists w, []. rewrite app_nil_r. repeat split; constructor. }
  unfold bind, try_catch_finally, setLoading, modify_ui, modify,
    selectEstimate, selectLineItems, backend, throw_if_error, throw, ret,
    setEstimate, setLineItems.
  cbn [db calls alerts ui].
  destruct (fails env (SelectEstimate i)) as [e1|];
    destruct (fails env (SelectLineItems i)) as [e2|];
    try destruct (filter _ (estimates (db w))) as [|row [|row' rest]];
    cbn [db calls alerts ui];
    eexists; exists [SelectEstimate i; SelectLineItems i];
    (split; [reflexivity|]); cbn [db calls alerts ui];
    rewrite <- ?app_assoc; repeat split; repeat constructor.
Qed.

Ltac run_handler :=
  unfold bind, try_catch_finally, setSaving, setEditing, setConverting, alert,
    modify_ui, modify, updateEstimate, deleteLineItems, insertLineItems,
    insertTicket, insertProject, backend, throw_if_error, throw, ret;
  cbn [db calls alerts ui fst snd].

(** C4. If the header update of a save fails, [handleSave] issues no other
    call: no delete and no insert reaches [estimate_line_items], every table
    is as before, and the user is told that the save failed. *)
Theorem header_failure_leaves_line_items :
  forall (env : Env) (w : World) (e : EstimateDetail) (err : PgError),
    estimate (ui w) = Some e ->
    fails env (save_update e (lineItems (ui w))) = Some err ->
    let w' := snd (handleSave env w) in
    fst (handleSave env w) = Normal tt
    /\ calls w' = calls w ++ [save_update e (lineItems (ui w))]
    /\ db w' = db w
    /\ estimate_line_items (db w') = estimate_line_items (db w)
    /\ alerts w' = alerts w ++ [save_failed].
Proof.
  intros env w e err He Hfail. unfold save_update in *.
  unfold handleSave. rewrite He. run_handler. rewrite Hfail.
  cbn [db calls alerts ui fst snd]. repeat split.
Qed.

(** C5, amended. If the delete of a save fails after the header update went
    through, the estimate is left with its new header and its old line
    items: no insert is issued, nothing is rolled back, and the user is told
    that the save failed; the handler itself completes normally. *)
Theorem delete_failure_keeps_new_header :
  forall (env : Env) (w : World) (e : EstimateDetail) (err : PgError),
    estimate (ui w) = Some e ->
    fails env (save_update e (lineItems (ui w))) = None ->
    fails env (DeleteLineItems (est_id e)) = Some err ->
    let w' := snd (handleSave env w) in
    fst (handleSave env w) = Normal tt
    /\ calls w' = calls w ++ [save_update e (lineItems (ui w));
                              DeleteLineItems (est_id e)]
    /\ estimates (db w') = with_saved_header e (lineItems (ui w)) (estimates (db w))
    /\ estimate_line_items (db w') = estimate_line_items (db w)
    /\ alerts w' = alerts w ++ [save_failed].
Proof.
  intros env w e err He Hupd Hdel. unfold save_update in *.
  unfold handleSave. rewrite He. run_handler. rewrite Hupd.
  cbn [db calls alerts ui fst snd]. rewrite Hdel.
  cbn [db calls alerts ui fst snd estimates estimate_line_items].
  rewrite <- app_assoc. repeat split.
Qed.

Lemma has_description_described (items : list LineItem) :
  filter has_description items = described items.
Proof.
  apply filter_ext. intros item. unfold has_description.
  destruct (description item); reflexivity.
Qed.

Lemma to_row_row_of (estimate_id : jsstring) (k : nat) (item : LineItem) :
  row_of estimate_id k item (to_row estimate_id k item).
Proof.
  unfold row_of, to_row; cbn.
  do 7 (split; [reflexivity|]).
  split; intros Hty.
  - apply str_eqb_eq in Hty. now rewrite Hty.
  - apply str_eqb_neq in Hty. now rewrite Hty.
Qed.

(** A save whose calls all go through: the calls it issues and the tables
    it leaves. *)
Lemma handleSave_success (env : Env) (w : World) (e : EstimateDetail) :
  estimate (ui w) = Some e ->
  let items := lineItems (ui w) in
  let rows := lineItemsToInsert (est_id e) items in
  fails env (save_update e items) = None ->
  fails env (DeleteLineItems (est_id e)) = None ->
  fails env (InsertLineItems rows) = None ->
  let w' := snd (handleSave env w) in
  fst (handleSave env w) = Normal tt
  /\ alerts w' = alerts w
  /\ estimates (db w') = with_saved_header e items (estimates (db w))
  /\ estimate_line_items (db w')
     = rows_of_others (est_id e) (estimate_line_items (db w)) ++ stored_as env rows
  /\ exists loads,
       calls w' = calls w
                  ++ [save_update e items; DeleteLineItems (est_id e)]
                  ++ match rows with [] => [] | _ :: _ => [InsertLineItems rows] end
                  ++ loads
       /\ Forall is_select loads.
Proof.
  intros He items rows Hupd Hdel Hins. subst items. unfold save_update in *.
  unfold handleSave. rewrite He. run_handler. rewrite Hupd.
  cbn [db calls alerts ui fst snd]. rewrite Hdel.
  cbn [db calls alerts ui fst snd estimates estimate_line_items].
  fold rows.
  destruct rows as [|r rows'] eqn:Hrows.
  - cbn [List.length Nat.ltb Nat.leb]. cbn [db calls alerts ui fst snd].
    match goal with |- context [loadEstimateDetails env ?W] =>
      destruct (loadEstimateDetails_reads env W) as (w2 & loads & E & Hdb & Hal & Hca & Hsel)
    end.
    rewrite E. cbn [db calls alerts ui fst snd] in *.
    rewrite Hdb, Hal, Hca. cbn [db calls alerts ui fst snd estimates estimate_line_items].
    unfold stored_as, map_index. cbn [map_index_from]. rewrite app_nil_r.
    repeat split. exists loads. rewrite <- !app_assoc. split; [reflexivity | exact Hsel].
  - change (0 <? List.length (r :: rows')) with true. cbv iota.
    rewrite Hins. cbn [db calls alerts ui fst snd].
    match goal with |- context [loadEstimateDetails env ?W] =>
      destruct (loadEstimateDetails_reads env W) as (w2 & loads & E & Hdb & Hal & Hca & Hsel)
    end.
    rewrite E. cbn [db calls alerts ui fst snd] in *.
    rewrite Hdb, Hal, Hca. cbn [db calls alerts ui fst snd estimates estimate_line_items].
    repeat split. exists loads. rewrite <- !app_assoc. split; [reflexivity | exact Hsel].
Qed.

(** C3. A save whose calls go through inserts exactly the items whose
    description is non-empty after trimming, in their order: the row at
    position [k] carries [line_order = k] and the item's type, description,
    quantity, unit price and line total; [labor_hours] and [labor_rate] are
    the quantity and the unit price of a 'labor' item and null for every
    other type.  These rows replace the rows the estimate had. *)
Theorem save_inserts_described_items :
  forall (env : Env) (w : World) (e : EstimateDetail),
    estimate (ui w) = Some e ->
    let items := lineItems (ui w) in
    let rows := lineItemsToInsert (est_id e) items in
    fails env (save_update e items) = None ->
    fails env (DeleteLineItems (est_id e)) = None ->
    fails env (InsertLineItems rows) = None ->
    let w' := snd (handleSave env w) in
    List.length rows = List.length (described items)
    /\ (forall k item, nth_error (described items) k = Some item ->
          exists row, nth_error rows k = Some row /\ row_of (est_id e) k item row)
    /\ estimate_line_items (db w')
       = rows_of_others (est_id e) (estimate_line_items (db w)) ++ stored_as env rows
    /\ exists loads,
         calls w' = calls w
                    ++ [save_update e items; DeleteLineItems (est_id e)]
                    ++ match rows with [] => [] | _ :: _ => [InsertLineItems rows] end
                    ++ loads
         /\ Forall is_select loads.
Proof.
  intros env w e He items rows Hupd Hdel Hins w'.
  destruct (handleSave_success env w e He Hupd Hdel Hins) as (_ & _ & _ & Hrows & Hcalls).
  subst rows. unfold lineItemsToInsert, map_index in *.
  rewrite has_description_described in *.
  split; [apply map_index_from_length|].
  split; [|split; [exact Hrows | exact Hcalls]].
  intros k item Hk. rewrite map_index_from_nth, Hk. simpl.
  eexists. split; [reflexivity|]. apply to_row_row_of.
Qed.


Lemma header_failure_leaves_line_items_witness :
  db (snd (handleSave
             (env_rejecting (fun r => match r with UpdateEstimate _ _ => true | _ => false end))
             (editing_world (lit "Sign install") example_items)))
  = db (editing_world (lit "Sign install") example_items).
Proof.
  eapply (header_failure_leaves_line_items
            (env_rejecting (fun r => match r with UpdateEstimate _ _ => true | _ => false end))
            (editing_world (lit "Sign install") example_items)).
  - reflexivity.
  - reflexivity.
Defined.

(** C5, as stated, fails: after a header update that went through and a
    delete that failed, the stored header is the new one, not the old one. *)
Lemma delete_failure_header_is_not_old :
  let w := editing_world (lit "Sign install, two sides") example_items in
  let w' := snd (handleSave delete_rejected w) in
  fails delete_rejected
    (save_update (edited_estimate (lit "Sign install, two sides")) example_items) = None
  /\ fails delete_rejected (DeleteLineItems (lit "e1")) = Some refused
  /\ map job_title (estimates (db w)) = [lit "Sign install"]
  /\ map job_title (estimates (db w')) = [lit "Sign install, two sides"]
  /\ estimates (db w') <> estimates (db w).
Proof.
  cbv zeta. repeat split; try reflexivity.
  intros H. apply (f_equal (map job_title)) in H. vm_compute in H. discriminate.
Qed.

Lemma delete_failure_keeps_new_header_witness :
  estimate_line_items
    (db (snd (handleSave delete_rejected
                (editing_world (lit "Sign install, two sides") example_items))))
  = estimate_line_items (db (editing_world (lit "Sign install, two sides") example_items)).
Proof.
  eapply (delete_failure_keeps_new_header delete_rejected
            (editing_world (lit "Sign install, two sides") example_items)).
  - reflexivity.
  - reflexivity.
  - reflexivity.
Defined.

Lemma save_inserts_described_items_witness :
  List.length (lineItemsToInsert (lit "e1") undescribed_labor)
  = List.length (described undescribed_labor).
Proof.
  eapply (save_inserts_described_items calm
            (editing_world (lit "Sign install") undescribed_labor)).
  - reflexivity.
  - reflexivity.
  - reflexivity.
  - reflexivity.
Defined.

(** C2 at work on the code.  The editor holds a labor line of 2 hours at
    100 with an empty description next to a described part of 15.  The save
    goes through.  The stored header says subtotal 215, tax 21.5, total
    236.5; the one stored line item gives 15, 1.5 and 16.5. *)
Theorem saved_totals_count_dropped_items :
  let w := editing_world (lit "Sign install") undescribed_labor in
  let w' := snd (handleSave calm w) in
  fst (handleSave calm w) = Normal tt
  /\ alerts w' = []
  /\ map (fun item => (item_type item, description item, line_total item))
         undescribed_labor
     = [ (lit "parts", lit "Bracket", 15%float); (lit "labor", [], 200%float) ]
  /\ map as_LineItem (estimate_line_items (db w'))
     = [ plain_item (lit "row-0") (lit "parts") (lit "Bracket") 1%float 15%float 15%float ]
  /\ map (fun r => (subtotal r, tax_rate r, tax_amount r, total_amount r))
         (estimates (db w'))
     = [ (215%float, 10%float, 21.5%float, 236.5%float) ]
  /\ calculateTotals (map as_LineItem (estimate_line_items (db w')))
                     (nth_error (estimates (db w')) 0)
     = {| t_subtotal := 15%float; t_discount := 0%float;
          t_taxAmount := 1.5%float; t_total := 16.5%float |}.
Proof.
  cbv zeta. repeat split; vm_compute; reflexivity.
Qed.

End SaveFacts.

(** ** Conversion *)

Module ConvertFacts.

Import EstimateDetailModal EstimateTerms JsFacts TotalsFacts EditorFacts SaveFacts.

Lemma ticket_of_estimate_seeded (e : EstimateDetail) (p : Profile) :
  ticket_seeded e p (ticket_of_estimate e p).
Proof.
  unfold ticket_seeded, ticket_of_estimate, or_default; cbn.
  destruct (job_description e); repeat split.
Qed.

Lemma project_of_estimate_seeded (e : EstimateDetail) (p : Profile) :
  project_seeded e p (project_of_estimate e p).
Proof.
  unfold project_seeded, project_of_estimate, or_default; cbn.
  destruct (job_description e); repeat split.
Qed.

Lemma converted_to_ticket_stamp (t d : jsstring) (r : EstimateDetail) :
  let r' := apply_patch (ConvertedToTicket t d) r in
  status r' = lit "converted"
  /\ converted_to_ticket_id r' = Some t
  /\ conversion_date r' = Some d.
Proof. destruct r; repeat split. Qed.

Lemma converted_to_project_stamp (t d : jsstring) (r : EstimateDetail) :
  let r' := apply_patch (ConvertedToProject t d) r in
  status r' = lit "converted"
  /\ converted_to_project_id r' = Some t
  /\ conversion_date r' = Some d.
Proof. destruct r; repeat split. Qed.

(** C8, as stated, fails: the ticket takes nothing from the estimate's
    total.  Two estimates that differ in their total only are converted into
    the same ticket. *)
Lemma ticket_ignores_total :
  let e1 := estimate_in (lit "accepted") 500%float None None in
  let e2 := estimate_in (lit "accepted") 975%float None None in
  total_amount e1 <> total_amount e2
  /\ tickets (db (snd (handleConvertToTicket calm (viewing_world e1 e1 []))))
     = tickets (db (snd (handleConvertToTicket calm (viewing_world e2 e2 []))))
  /\ List.length (tickets (db (snd (handleConvertToTicket calm (viewing_world e1 e1 [])))))
     = 1.
Proof.
  cbv zeta. repeat split; try reflexivity.
  cbn. intros H.
  assert (E : PrimFloat.eqb 500 975 = PrimFloat.eqb 975 975) by now rewrite H.
  vm_compute in E. discriminate.
Qed.

(** C8, amended.  When the user confirms and both calls go through,
    [handleConvertToTicket] appends one ticket that takes the customer, the
    job title and the job description (or 'Converted from estimate' when
    that is empty) from the estimate, and nothing from its total;
    [handleConvertToProject] appends one project that takes the customer,
    the job title, the job description and, as budget, the total.  Either
    then sets the estimate's rows to status 'converted' with the new
    record's id as back-reference and the current time as conversion
    date. *)
Theorem conversion_creates_and_stamps :
  forall (env : Env) (w : World) (e : EstimateDetail) (p : Profile),
    estimate (ui w) = Some e ->
    profile (ui w) = Some p ->
    confirm_answer env = true ->
    (fails env (InsertTicket (ticket_of_estimate e p)) = None ->
     fails env (stamp_ticket env e) = None ->
     let w' := snd (handleConvertToTicket env w) in
     exists t loads,
       ticket_seeded e p t
       /\ tickets (db w')
          = tickets (db w) ++ [mkStoredTicket (new_id env 0) (new_ticket_number env) t]
       /\ projects (db w') = projects (db w)
       /\ estimates (db w')
          = with_patch (ConvertedToTicket (new_id env 0) (now env)) e (estimates (db w))
       /\ calls w' = calls w ++ [InsertTicket t; stamp_ticket env e] ++ loads
       /\ Forall is_select loads)
    /\ (fails env (InsertProject (project_of_estimate e p)) = None ->
        fails env (stamp_project env e) = None ->
        let w' := snd (handleConvertToProject env w) in
        exists j loads,
          project_seeded e p j
          /\ projects (db w') = projects (db w) ++ [mkStoredProject (new_id env 0) j]
          /\ tickets (db w') = tickets (db w)
          /\ estimates (db w')
             = with_patch (ConvertedToProject (new_id env 0) (now env)) e (estimates (db w))
          /\ calls w' = calls w ++ [InsertProject j; stamp_project env e] ++ loads
          /\ Forall is_select loads)
    /\ (forall t d r,
          status (apply_patch (ConvertedToTicket t d) r) = lit "converted"
          /\ converted_to_ticket_id (apply_patch (ConvertedToTicket t d) r) = Some t
          /\ conversion_date (apply_patch (ConvertedToTicket t d) r) = Some d)
    /\ (forall t d r,
          status (apply_patch (ConvertedToProject t d) r) = lit "converted"
          /\ converted_to_project_id (apply_patch (ConvertedToProject t d) r) = Some t
          /\ conversion_date (apply_patch (ConvertedToProject t d) r) = Some d).
Proof.
  intros env w e p He Hp Hc. unfold stamp_ticket, stamp_project.
  split; [|split; [|split]].
  - intros Hins Hupd. unfold handleConvertToTicket. rewrite He, Hp, Hc.
    cbn [negb]. run_handler. rewrite Hins.
    cbn [db calls alerts ui fst snd ticket_id]. rewrite Hupd.
    cbn [db calls alerts ui fst snd].
    match goal with |- context [loadEstimateDetails env ?W] =>
      destruct (loadEstimateDetails_reads env W) as (w2 & loads & E & Hdb & Hal & Hca & Hsel)
    end.
    rewrite E. cbn [db calls alerts ui fst snd] in *.
    exists (ticket_of_estimate e p), loads.
    rewrite Hdb, Hca. cbn [db calls alerts ui fst snd estimates tickets projects].
    rewrite <- !app_assoc.
    repeat split; try exact Hsel; apply ticket_of_estimate_seeded.
  - intros Hins Hupd. unfold handleConvertToProject. rewrite He, Hp, Hc.
    cbn [negb]. run_handler. rewrite Hins.
    cbn [db calls alerts ui fst snd project_id]. rewrite Hupd.
    cbn [db calls alerts ui fst snd].
    match goal with |- context [loadEstimateDetails env ?W] =>
      destruct (loadEstimateDetails_reads env W) as (w2 & loads & E & Hdb & Hal & Hca & Hsel)
    end.
    rewrite E. cbn [db calls alerts ui fst snd] in *.
    exists (project_of_estimate e p), loads.
    rewrite Hdb, Hca. cbn [db calls alerts ui fst snd estimates tickets projects].
    rewrite <- !app_assoc.
    repeat split; try exact Hsel; apply project_of_estimate_seeded.
  - intros t d r. apply converted_to_ticket_stamp.
  - intros t d r. apply converted_to_project_stamp.
Qed.

Lemma conversion_creates_and_stamps_witness :
  exists t loads,
    ticket_seeded stale_copy (mkProfile (lit "user-1")) t
    /\ tickets (db (snd (handleConvertToTicket calm (viewing_world stale_copy stale_copy []))))
       = [] ++ [mkStoredTicket (new_id calm 0) (new_ticket_number calm) t]
    /\ projects (db (snd (handleConvertToTicket calm (viewing_world stale_copy stale_copy []))))
       = []
    /\ estimates (db (snd (handleConvertToTicket calm (viewing_world stale_copy stale_copy []))))
       = with_patch (ConvertedToTicket (new_id calm 0) (now calm)) stale_copy [stale_copy]
    /\ calls (snd (handleConvertToTicket calm (viewing_world stale_copy stale_copy [])))
       = [] ++ [InsertTicket t; stamp_ticket calm stale_copy] ++ loads
    /\ Forall is_select loads.
Proof.
  apply (proj1 (conversion_creates_and_stamps calm
                  (viewing_world stale_copy stale_copy []) stale_copy
                  (mkProfile (lit "user-1")) eq_refl eq_refl eq_refl));
    reflexivity.
Defined.

(** C7 at work on the code.  The table says the estimate is converted into
    ticket T1; the modal still shows the copy it loaded before, so the
    conversion buttons are rendered.  The user converts: a second ticket is
    inserted and the row's ticket reference and conversion date are
    overwritten.  The handler does the same when the copy it holds bears the
    reference already. *)
Theorem second_conversion_goes_through :
  let w := viewing_world already_converted stale_copy [first_ticket] in
  let w' := snd (handleConvertToTicket calm w) in
  let v := viewing_world already_converted already_converted [first_ticket] in
  let v' := snd (handleConvertToTicket calm v) in
  shows_convert_buttons stale_copy = true
  /\ shows_convert_buttons already_converted = false
  /\ map converted_to_ticket_id (estimates (db w)) = [Some (lit "T1")]
  /\ map ticket_id (tickets (db w')) = [lit "T1"; lit "row-0"]
  /\ map converted_to_ticket_id (estimates (db w')) = [Some (lit "row-0")]
  /\ map conversion_date (estimates (db w')) = [Some (lit "2024-05-01T12:00:00.000Z")]
  /\ alerts w' = [lit "Successfully converted to ticket #row-0"]
  /\ map ticket_id (tickets (db v')) = [lit "T1"; lit "row-0"]
  /\ map converted_to_ticket_id (estimates (db v')) = [Some (lit "row-0")].
Proof.
  cbv zeta. repeat split; vm_compute; reflexivity.
Qed.

End ConvertFacts.

(** ** Ticket update errors *)

Module TicketFacts.

Import TicketDetailModal TicketTerms JsFacts.

Section WithTicket.

Variable Ticket : Type.
Variable completed_date : Ticket -> option jsstring.
Variable parseFloat : jsstring -> number.

Lemma contains_truthy (msg pat : jsstring) :
  contains msg pat -> pat <> [] -> truthy_str msg = true.
Proof.
  intros (pre & post & ->) Hpat.
  destruct pre; [destruct pat; [congruence | reflexivity] | reflexivity].
Qed.

(** C9. When the update of a ticket is answered with an error whose message
    contains 'permission denied', 'policy' or 'Row level security',
    [handleUpdate] issues that one update and nothing after it but one alert
    with the text 'You do not have permission to update this ticket. Please
    contact your administrator.': it does not retry and calls neither
    [onUpdate] nor [onClose]. *)
Theorem permission_error_is_remapped :
  forall (now : jsstring) (u : Ui Ticket) (t : Ticket) (error : PgError),
    ticket u = Some t ->
    contains (message error) (lit "permission denied")
    \/ contains (message error) (lit "policy")
    \/ contains (message error) (lit "Row level security") ->
    handleUpdate completed_date parseFloat now (Resolved (Some error)) u
    = ([ UpdateTicket (ticketId u) (build_updates completed_date parseFloat now t u);
         Alert (lit "You do not have permission to update this ticket. Please contact your administrator.") ],
       setSaving false u).
Proof.
  intros now u t error Ht Hmsg.
  unfold handleUpdate. rewrite Ht. do 3 f_equal.
  unfold errorMessage.
  assert (Htruthy : truthy_str (message error) = true).
  { destruct Hmsg as [H | [H | H]];
      (eapply contains_truthy; [exact H | discriminate]). }
  rewrite Htruthy.
  assert (Hany : includes (lit "permission denied") (message error)
                 || includes (lit "policy") (message error)
                 || includes (lit "Row level security") (message error) = true).
  { rewrite !orb_true_iff, !includes_substring. tauto. }
  rewrite Hany. reflexivity.
Qed.

End WithTicket.

Lemma permission_error_is_remapped_witness :
  fst (handleUpdate (fun t => t) (fun _ => 2.5%float) (lit "2024-05-01T12:00:00.000Z")
         (Resolved (Some denied)) ticket_ui)
  = [ UpdateTicket (lit "t-7")
        (mkUpdates (lit "completed") (Some 2.5%float)
                   (Some (lit "2024-05-01T12:00:00.000Z")));
      Alert permission_message ].
Proof.
  rewrite (permission_error_is_remapped (option jsstring) (fun t => t)
             (fun _ => 2.5%float) (lit "2024-05-01T12:00:00.000Z")
             ticket_ui open_ticket denied eq_refl).
  - reflexivity.
  - right. left.
    exists (lit "new row violates row-level security "), (lit " for table tickets").
    reflexivity.
Defined.

End TicketFacts.

(** ** More on numbers *)

Module NumberFacts.

Import EstimateDetailModal EstimateTerms MoreTerms JsFacts TotalsFacts.
Local Open Scope float_scope.

Lemma abs_opp (x : float) : PrimFloat.abs (- x) = PrimFloat.abs x.
Proof.
  apply Prim2SF_inj. rewrite !abs_spec, opp_spec.
  destruct (Prim2SF x); reflexivity.
Qed.

(** Adding the product with a zero to a finite number gives that number. *)
Lemma finite_add_mul_zero (x : float) :
  finite x -> PrimFloat.eqb (x * 0) 0 = true /\ same_number (x + x * 0) x.
Proof.
  unfold finite. intros Hfin.
  destruct (Prim2SF x) as [s|s| |s m e] eqn:E; try contradiction.
  - split.
    + rewrite FloatAxioms.eqb_spec, mul_spec, E. reflexivity.
    + right. rewrite FloatAxioms.eqb_spec, add_spec, mul_spec, E. now destruct s.
  - split.
    + rewrite FloatAxioms.eqb_spec, mul_spec, E. reflexivity.
    + left. apply Prim2SF_inj. rewrite add_spec, mul_spec, E. reflexivity.
Qed.

End NumberFacts.

(** ** More on totals *)

Module TotalsMoreFacts.

Import EstimateDetailModal EstimateTerms MoreTerms JsFacts TotalsFacts NumberFacts.
Local Open Scope float_scope.

Lemma fold_left_map_step {A : Type} (step : number -> A -> number) (g : A -> A)
  (l : list A) :
  (forall acc x, step acc (g x) = step acc x) ->
  forall acc, fold_left step (map g l) acc = fold_left step l acc.
Proof.
  intros Hg. induction l as [|x l IH]; intros acc; simpl; [reflexivity|].
  now rewrite Hg, IH.
Qed.

Lemma is_discount_flip_total (item : LineItem) :
  is_discount (flip_total item) = is_discount item.
Proof. now destruct item. Qed.

Lemma line_total_flip_total (item : LineItem) :
  line_total (flip_total item) = - line_total item.
Proof. now destruct item. Qed.

(** X1. The sign of a discount line does not matter: a discount entered as
    20 and one entered as -20 give the same subtotal, discount, tax amount
    and total. *)
Theorem discount_sign_is_ignored :
  forall (items : list LineItem) (est : option EstimateDetail),
    calculateTotals
      (map (fun item => if is_discount item then flip_total item else item) items)
      est
    = calculateTotals items est.
Proof.
  intros items est. unfold calculateTotals.
  rewrite (fold_left_map_step subtotal_step), (fold_left_map_step discount_step);
    [reflexivity | |].
  - intros acc item. unfold discount_step.
    destruct (is_discount item) eqn:E; [|now rewrite E].
    rewrite is_discount_flip_total, E, line_total_flip_total.
    unfold Number. now rewrite abs_opp.
  - intros acc item. unfold subtotal_step.
    destruct (is_discount item) eqn:E; [|now rewrite E].
    now rewrite is_discount_flip_total, E.
Qed.

(** X2. Without a tax rate there is no tax: when no estimate is loaded, or
    its tax rate is +0, -0 or NaN, [calculateTotals] multiplies by zero; for
    a finite subtotal minus discount the tax amount is then a zero and the
    total is the subtotal minus the discount. *)
Theorem no_tax_rate_no_tax :
  forall (items : list LineItem) (est : option EstimateDetail),
    (est = None
     \/ exists e, est = Some e
                  /\ (tax_rate e = 0 \/ tax_rate e = -0 \/ tax_rate e = nan)) ->
    let t := calculateTotals items est in
    t_taxAmount t = (t_subtotal t - t_discount t) * 0
    /\ (finite (t_subtotal t - t_discount t) ->
        PrimFloat.eqb (t_taxAmount t) 0 = true
        /\ same_number (t_total t) (t_subtotal t - t_discount t)).
Proof.
  intros items est Hest t. subst t. unfold calculateTotals.
  cbn [t_subtotal t_discount t_taxAmount t_total].
  set (x := fold_left subtotal_step items 0 - fold_left discount_step items 0).
  assert (Hrate : or_zero (option_map tax_rate est) / 100 = 0).
  { destruct Hest as [-> | (e & -> & [H | [H | H]])]; cbn [option_map or_zero];
      try rewrite H; reflexivity. }
  rewrite Hrate. split; [reflexivity|]. apply finite_add_mul_zero.
Qed.

Lemma no_tax_rate_no_tax_witness :
  PrimFloat.eqb (t_taxAmount (calculateTotals example_items None)) 0 = true
  /\ same_number (t_total (calculateTotals example_items None))
                 (t_subtotal (calculateTotals example_items None)
                  - t_discount (calculateTotals example_items None)).
Proof.
  apply (proj2 (no_tax_rate_no_tax example_items None (or_introl eq_refl))).
  exact I.
Defined.

End TotalsMoreFacts.

(** ** More on local edits *)

Module EditMoreFacts.

Import EstimateDetailModal EstimateTerms MoreTerms JsFacts TotalsFacts EditorFacts.

Lemma map_unaddressed {f : LineItem -> LineItem} (i : jsstring) (l : list LineItem) :
  (forall item, str_eqb (id item) i = false -> f item = item) ->
  (forall item, In item l -> id item <> i) ->
  map f l = l.
Proof.
  intros Hf Hl. rewrite <- (map_id l) at 2. apply map_ext_in.
  intros item Hin. apply Hf. apply str_eqb_neq. now apply Hl.
Qed.

Lemma updateLineItem_unaddressed (i : jsstring) (a : Assignment) (l : list LineItem) :
  (forall item, In item l -> id item <> i) -> updateLineItem i a l = l.
Proof.
  apply map_unaddressed. intros item E. unfold updateLineItem_item. now rewrite E.
Qed.

Lemma without_id_unaddressed (i : jsstring) (l : list LineItem) :
  (forall item, In item l -> id item <> i) -> without_id i l = l.
Proof.
  unfold without_id. induction l as [|x l IH]; intros H; simpl; [reflexivity|].
  assert (E : str_eqb (id x) i = false) by (apply str_eqb_neq, H; now left).
  rewrite E. simpl. f_equal. apply IH. intros item Hin. apply H. now right.
Qed.

(** X3. An edit addressed to an id that no item carries changes nothing:
    field updates, catalog selections and removal leave the list as it
    is. *)
Theorem edit_of_unknown_id_is_noop :
  forall (c : Catalog) (ed : Edit) (i : jsstring) (l : list LineItem),
    edit_target ed = Some i ->
    (forall item, In item l -> id item <> i) ->
    apply_edit c ed l = l.
Proof.
  intros c ed i l Ht Hl.
  destruct ed; simpl in Ht; try discriminate; injection Ht as ->; simpl.
  1-4: now apply updateLineItem_unaddressed.
  - unfold handleLaborRateSelect. destruct (find _ _); [|reflexivity].
    apply (map_unaddressed i); [|exact Hl]. intros item E. now rewrite E.
  - unfold handlePartSelect. destruct (find _ _); [|reflexivity].
    apply (map_unaddressed i); [|exact Hl]. intros item E. now rewrite E.
  - unfold handleEquipmentSelect. destruct (find _ _); [|reflexivity].
    apply (map_unaddressed i); [|exact Hl]. intros item E. now rewrite E.
  - unfold removeLineItem. destruct (1 <? List.length l); [|reflexivity].
    now apply without_id_unaddressed.
Qed.

Lemma edit_of_unknown_id_is_noop_witness :
  apply_edit shop (SelectPart (lit "zz") (lit "p1")) example_items = example_items.
Proof.
  apply (edit_of_unknown_id_is_noop shop (SelectPart (lit "zz") (lit "p1")) (lit "zz")).
  - reflexivity.
  - intros item [<- | [<- | []]]; vm_compute; discriminate.
Defined.

Lemma find_none_of {A : Type} (p : A -> bool) (l : list A) :
  (forall x, In x l -> p x = false) -> find p l = None.
Proof.
  induction l as [|x l IH]; intros H; simpl; [reflexivity|].
  rewrite (H x (or_introl eq_refl)). apply IH. intros y Hy. apply H. now right.
Qed.

(** X4. A selection whose key is not in the catalog changes nothing, for
    the labor-rate, part and equipment selects alike; in particular the
    placeholder option, whose value is the empty string, selects no labor
    rate. *)
Theorem selecting_unknown_key_is_noop :
  forall (c : Catalog) (i k : jsstring) (l : list LineItem),
    ((forall r, In r (laborRates c) -> key r <> k) ->
     handleLaborRateSelect (laborRates c) i k l = l)
    /\ ((forall p, In p (parts c) -> pt_id p <> k) ->
        handlePartSelect (parts c) i k l = l)
    /\ ((forall e, In e (equipment c) -> eqp_id e <> k) ->
        handleEquipmentSelect (equipment c) i k l = l)
    /\ (forall p, handleLaborRateSelect (rates_of_profile p) i [] l = l).
Proof.
  intros c i k l. repeat split.
  - intros H. unfold handleLaborRateSelect. rewrite find_none_of; [reflexivity|].
    intros r Hr. apply str_eqb_neq. now apply H.
  - intros H. unfold handlePartSelect. rewrite find_none_of; [reflexivity|].
    intros r Hr. apply str_eqb_neq. now apply H.
  - intros H. unfold handleEquipmentSelect. rewrite find_none_of; [reflexivity|].
    intros r Hr. apply str_eqb_neq. now apply H.
Qed.

Lemma selecting_unknown_key_is_noop_witness :
  handlePartSelect (parts shop) (lit "a") (lit "p9") example_items = example_items.
Proof.
  apply (proj1 (proj2 (selecting_unknown_key_is_noop shop (lit "a") (lit "p9")
                         example_items))).
  intros p [<- | [<- | []]]; vm_compute; discriminate.
Defined.

(** *** Ids and length *)

Lemma map_id_preserved (f : LineItem -> LineItem) (l : list LineItem) :
  (forall item, id (f item) = id item) -> map id (map f l) = map id l.
Proof.
  intros Hf. rewrite map_map. apply map_ext. exact Hf.
Qed.

Lemma updateLineItem_item_id (i : jsstring) (a : Assignment) (item : LineItem) :
  (forall v, a <> set_id v) -> id (updateLineItem_item i a item) = id item.
Proof.
  intros Ha. unfold updateLineItem_item.
  destruct (str_eqb (id item) i); [|reflexivity].
  destruct item, a; try reflexivity. now contradiction (Ha value).
Qed.

Lemma NoDup_map_id_filter (p : LineItem -> bool) (l : list LineItem) :
  NoDup (map id l) -> NoDup (map id (filter p l)).
Proof.
  induction l as [|x l IH]; simpl; intros H; [constructor|].
  inversion H as [|y ys Hnotin Hnd]; subst.
  destruct (p x); simpl; [|now apply IH].
  constructor; [|now apply IH].
  intros Hin. apply Hnotin. apply in_map_iff in Hin as (z & Hz & Hzin).
  apply in_map_iff. exists z. split; [exact Hz|].
  apply filter_In in Hzin. tauto.
Qed.

Lemma apply_edit_ids (c : Catalog) (ed : Edit) (l : list LineItem) :
  match ed with
  | AddLineItem u => map id (apply_edit c ed l) = map id l ++ [u]
  | RemoveLineItem i =>
      apply_edit c ed l = l \/ apply_edit c ed l = without_id i l
  | _ => map id (apply_edit c ed l) = map id l
  end.
Proof.
  destruct ed; simpl.
  1-4: apply map_id_preserved; intros item; apply updateLineItem_item_id;
       intros v; discriminate.
  - unfold handleLaborRateSelect. destruct (find _ _); [|reflexivity].
    apply map_id_preserved. intros item. now destruct (str_eqb (id item) itemId).
  - unfold handlePartSelect. destruct (find _ _); [|reflexivity].
    apply map_id_preserved. intros item. now destruct (str_eqb (id item) itemId).
  - unfold handleEquipmentSelect. destruct (find _ _); [|reflexivity].
    apply map_id_preserved. intros item. now destruct (str_eqb (id item) itemId).
  - unfold addLineItem. now rewrite map_app.
  - unfold removeLineItem. destruct (1 <? List.length l); [now right | now left].
Qed.

Lemma apply_edit_keeps (c : Catalog) (ed : Edit) (l : list LineItem) :
  NoDup (map id l) -> fresh_for ed l ->
  NoDup (map id (apply_edit c ed l))
  /\ (1 <= List.length l -> 1 <= List.length (apply_edit c ed l)).
Proof.
  intros Hnd Hfresh. pose proof (apply_edit_ids c ed l) as Hids.
  assert (Hlen : forall l', map id l' = map id l -> List.length l' = List.length l).
  { intros l' E. now rewrite <- (length_map id l'), E, length_map. }
  destruct ed; try (rewrite Hids; split; [exact Hnd | now rewrite (Hlen _ Hids)]).
  - rewrite Hids. split.
    + apply NoDup_app; [exact Hnd | repeat constructor; intros [] |].
      intros x Hx [<- | []]. now apply Hfresh.
    + intros _. rewrite <- (length_map id), Hids, length_app. simpl. lia.
  - simpl. unfold removeLineItem. destruct (1 <? List.length l) eqn:E.
    + split; [now apply NoDup_map_id_filter|].
      intros _. apply Nat.ltb_lt in E. fold (without_id itemId l).
      pose proof (with_without_length itemId l).
      pose proof (distinct_ids_with_id itemId l Hnd). lia.
    + split; [exact Hnd | trivial].
Qed.

(** X5. While editing, the ids stay pairwise distinct and the list never
    becomes empty: starting from a non-empty list with distinct ids, every
    run of edits in which each added line gets an id new to the list ends
    in a non-empty list with distinct ids. *)
Theorem edits_keep_ids_distinct_and_one_item :
  forall (c : Catalog) (eds : list Edit) (l : list LineItem),
    NoDup (map id l) ->
    1 <= List.length l ->
    fresh_along c eds l ->
    NoDup (map id (apply_edits c eds l))
    /\ 1 <= List.length (apply_edits c eds l).
Proof.
  intros c eds. induction eds as [|ed eds IH]; intros l Hnd Hlen Hfresh; simpl.
  - now split.
  - destruct Hfresh as [Hf Hrest].
    destruct (apply_edit_keeps c ed l Hnd Hf) as [Hnd' Hlen'].
    apply IH; auto.
Qed.

Lemma edits_keep_ids_distinct_and_one_item_witness :
  1 <= List.length
         (apply_edits shop
            [AddLineItem (lit "n1"); RemoveLineItem (lit "a"); RemoveLineItem (lit "b");
             RemoveLineItem (lit "n1")]
            example_items).
Proof.
  apply (edits_keep_ids_distinct_and_one_item shop
           [AddLineItem (lit "n1"); RemoveLineItem (lit "a"); RemoveLineItem (lit "b");
            RemoveLineItem (lit "n1")]
           example_items).
  - vm_compute. repeat constructor; simpl; intros H;
      repeat (destruct H as [H | H]; [discriminate|]); exact H.
  - vm_compute. lia.
  - vm_compute. repeat split. intros H.
    repeat (destruct H as [H | H]; [discriminate|]). exact H.
Defined.

(** *** Line totals *)

Lemma Forall_map_priced (f : LineItem -> LineItem) (l : list LineItem) :
  (forall item, priced item -> priced (f item)) ->
  Forall priced l -> Forall priced (map f l).
Proof.
  intros Hf H. induction H; simpl; constructor; auto.
Qed.

Lemma Forall_filter_priced (p : LineItem -> bool) (l : list LineItem) :
  Forall priced l -> Forall priced (filter p l).
Proof.
  intros H. induction H as [|x l Hx Hl IH]; simpl; [constructor|].
  destruct (p x); [constructor|]; auto.
Qed.

(** X6. Every line total is the product of quantity and unit price, and
    stays so: the field edits of the form, the labor-rate and part selects,
    "Add Line Item" and "Remove" keep [line_total = quantity * unit_price]
    on every item.  (The equipment select, which zeroes price and total
    whatever the quantity, is the one edit left out.) *)
Theorem edits_keep_line_totals_priced :
  forall (c : Catalog) (ed : Edit) (l : list LineItem),
    is_equipment_select ed = false ->
    Forall priced l ->
    Forall priced (apply_edit c ed l).
Proof.
  intros c ed l Hed Hl. destruct ed; simpl in *; try discriminate.
  1-4: apply Forall_map_priced; [|exact Hl]; intros item Hp;
       unfold updateLineItem_item; destruct (str_eqb (id item) itemId);
       [|exact Hp]; destruct item; exact Hp || reflexivity.
  - unfold handleLaborRateSelect. destruct (find _ _); [|exact Hl].
    apply Forall_map_priced; [|exact Hl]. intros item Hp.
    destruct (str_eqb (id item) itemId); [reflexivity | exact Hp].
  - unfold handlePartSelect. destruct (find _ _); [|exact Hl].
    apply Forall_map_priced; [|exact Hl]. intros item Hp.
    destruct (str_eqb (id item) itemId); [reflexivity | exact Hp].
  - unfold addLineItem. apply Forall_app. split; [exact Hl|].
    repeat constructor.
  - unfold removeLineItem. destruct (1 <? List.length l); [|exact Hl].
    now apply Forall_filter_priced.
Qed.

Lemma edits_keep_line_totals_priced_witness :
  Forall priced (apply_edit shop (EditQuantity (lit "a") 3.5%float) example_items)
  /\ map line_total (apply_edit shop (EditQuantity (lit "a") 3.5%float) example_items)
     = [350%float; (-20)%float].
Proof.
  split; [|reflexivity].
  apply (edits_keep_line_totals_priced shop (EditQuantity (lit "a") 3.5%float)).
  - reflexivity.
  - repeat constructor.
Defined.

(** X7. Picking one of the three rates [loadData] offers gives the line a
    description that survives the filter of the save: every item the
    selection addresses ends with the rate's name as description, the
    rate as unit price and labor rate, and passes [has_description]. *)
Theorem picked_labor_rate_describes_the_line :
  forall (p : LaborRateProfile) (i k : jsstring) (l : list LineItem),
    k = lit "standard" \/ k = lit "after_hours" \/ k = lit "emergency" ->
    exists r,
      In r (rates_of_profile p) /\ key r = k
      /\ forall n item,
           nth_error l n = Some item -> id item = i ->
           exists item',
             nth_error (handleLaborRateSelect (rates_of_profile p) i k l) n = Some item'
             /\ description item' = rate_name r
             /\ unit_price item' = rate r
             /\ labor_rate item' = Some (rate r)
             /\ has_description item' = true.
Proof.
  intros p i k l Hk.
  assert (Hfind : exists r, find (fun r => str_eqb (key r) k) (rates_of_profile p) = Some r
                            /\ In r (rates_of_profile p) /\ key r = k
                            /\ has_description
                                 (plain_item [] [] (rate_name r) 0%float 0%float 0%float)
                               = true).
  { destruct Hk as [-> | [-> | ->]]; eexists; (split; [reflexivity|]);
      simpl; repeat split; auto. }
  destruct Hfind as (r & Hfind & Hin & Hkey & Hdesc).
  exists r. repeat split; auto.
  intros n item Hn Hid. unfold handleLaborRateSelect. rewrite Hfind.
  rewrite nth_error_map, Hn. simpl.
  apply str_eqb_eq in Hid. rewrite Hid.
  eexists. split; [reflexivity|]. repeat split. exact Hdesc.
Qed.

Lemma picked_labor_rate_describes_the_line_witness :
  exists r,
    In r (laborRates shop) /\ key r = lit "emergency"
    /\ forall n item,
         nth_error undescribed_labor n = Some item -> id item = lit "n1" ->
         exists item',
           nth_error (handleLaborRateSelect (laborRates shop) (lit "n1")
                        (lit "emergency") undescribed_labor) n = Some item'
           /\ description item' = rate_name r
           /\ unit_price item' = rate r
           /\ labor_rate item' = Some (rate r)
           /\ has_description item' = true.
Proof.
  apply (picked_labor_rate_describes_the_line
           (mkLaborRateProfile 95%float 140%float 190%float)).
  right. right. reflexivity.
Defined.

(** *** What the save will keep *)

Lemma updateLineItem_item_description (i : jsstring) (a : Assignment)
  (item : LineItem) :
  keeps_id_and_description a = true ->
  description (updateLineItem_item i a item) = description item
  /\ id (updateLineItem_item i a item) = id item.
Proof.
  intros Ha. unfold updateLineItem_item.
  destruct (str_eqb (id item) i); [|now split].
  destruct item, a; try discriminate; now split.
Qed.

Lemma lineItemsToInsert_app_undescribed (e : jsstring) (l : list LineItem)
  (x : LineItem) :
  description x = [] -> lineItemsToInsert e (l ++ [x]) = lineItemsToInsert e l.
Proof.
  intros Hx. unfold lineItemsToInsert. rewrite filter_app. simpl.
  unfold has_description at 2. rewrite Hx. simpl. now rewrite app_nil_r.
Qed.

(** X8. A line that is added and priced but never described is not saved:
    after "Add Line Item" with an id new to the list, whatever is assigned
    to fields of the new line other than its description, the rows the save
    inserts are those of the list before the line was added. *)
Theorem undescribed_new_line_is_not_saved :
  forall (e u : jsstring) (assignments : list Assignment) (l : list LineItem),
    ~ In u (map id l) ->
    Forall (fun a => keeps_id_and_description a = true) assignments ->
    lineItemsToInsert e
      (fold_left (fun items a => updateLineItem u a items) assignments
                 (addLineItem u l))
    = lineItemsToInsert e l.
Proof.
  intros e u assignments l Hfresh Has.
  assert (Hinv : exists x,
             fold_left (fun items a => updateLineItem u a items) assignments
                       (addLineItem u l) = l ++ [x]
             /\ description x = []).
  { unfold addLineItem.
    set (x0 := {| id := u; line_order := List.length l; item_type := lit "labor";
                  description := []; quantity := 1%float; unit_price := 0%float;
                  line_total := 0%float; part_id := None; equipment_id := None;
                  labor_hours := None; labor_rate := None |}).
    assert (Hx0 : description x0 = [] /\ id x0 = u) by now split.
    clearbody x0. revert x0 Hx0.
    induction Has as [|a assignments Ha Has IH]; intros x0 [Hd Hi]; simpl.
    - now exists x0.
    - unfold updateLineItem at 2. rewrite map_app. simpl.
      fold (updateLineItem u a l).
      rewrite updateLineItem_unaddressed.
      2:{ intros item Hin Heq. apply Hfresh. apply in_map_iff. now exists item. }
      apply IH.
      destruct (updateLineItem_item_description u a x0 Ha) as [Hd' Hi'].
      split; congruence. }
  destruct Hinv as (x & -> & Hx).
  now apply lineItemsToInsert_app_undescribed.
Qed.

Lemma undescribed_new_line_is_not_saved_witness :
  lineItemsToInsert (lit "e1") undescribed_labor
  = lineItemsToInsert (lit "e1") [bracket].
Proof.
  apply (undescribed_new_line_is_not_saved (lit "e1") (lit "n1")
           [set_quantity 2%float; set_unit_price 100%float] [bracket]).
  - simpl. intros [H | []]. discriminate.
  - repeat constructor.
Defined.

End EditMoreFacts.

(** ** Reloading *)

Module ReloadFacts.

Import EstimateDetailModal EstimateTerms MoreTerms JsFacts TotalsFacts EditorFacts
  SaveFacts.

Ltac run_load :=
  unfold bind, try_catch_finally, setLoading, setEstimate, setLineItems, setEditing,
    modify_ui, modify, selectEstimate, selectLineItems, backend, throw_if_error,
    throw, ret;
  cbn [db calls alerts ui fst snd estimateId profile loading saving converting
       editing estimate lineItems].

(** A load whose selects answer and find one row installs the row and the
    ordered line items. *)
Lemma loadEstimateDetails_success (env : Env) (w : World) (i : jsstring)
  (row : EstimateDetail) :
  estimateId (ui w) = Some i -> i <> [] ->
  load_succeeds env i (db w) row ->
  loadEstimateDetails env w
  = (Normal tt,
     after_selects i w (loaded_ui (ui w) false (Some row) (selected_line_items i (db w)))).
Proof.
  intros Hid Hi (H1 & H2 & Hrow). unfold loadEstimateDetails. rewrite Hid.
  destruct i as [|c i]; [congruence|]. cbn [truthy_str negb].
  run_load. rewrite H1. cbn [db calls alerts ui fst snd].
  unfold estimates_with_id in Hrow. rewrite Hrow, H2.
  cbn [db calls alerts ui fst snd estimateId profile loading saving converting
       editing estimate lineItems].
  unfold after_selects, loaded_ui, selected_line_items.
  now rewrite <- app_assoc.
Qed.

(** A load that fails only resets [loading]. *)
Lemma loadEstimateDetails_failure (env : Env) (w : World) (i : jsstring) :
  estimateId (ui w) = Some i -> i <> [] ->
  load_fails env i (db w) ->
  loadEstimateDetails env w
  = (Normal tt,
     after_selects i w (loaded_ui (ui w) false (estimate (ui w)) (lineItems (ui w)))).
Proof.
  intros Hid Hi Hfail. unfold loadEstimateDetails. rewrite Hid.
  destruct i as [|c i]; [congruence|]. cbn [truthy_str negb].
  run_load. unfold load_fails, estimates_with_id in Hfail.
  unfold after_selects, loaded_ui.
  destruct (fails env (SelectEstimate (c :: i))) as [e1|] eqn:E1;
    destruct (fails env (SelectLineItems (c :: i))) as [e2|] eqn:E2;
    try destruct (filter _ (estimates (db w))) as [|r [|r' rest]] eqn:Ef;
    cbn [db calls alerts ui fst snd estimateId profile loading saving converting
         editing estimate lineItems];
    rewrite <- ?app_assoc; try reflexivity.
  exfalso. destruct Hfail as [H | [H | H]]; try congruence. now apply H.
Qed.

(** Whatever the selects answer, a load only reads and only sets
    [loading], [estimate] and [lineItems]. *)
Lemma loadEstimateDetails_frame (env : Env) (w : World) :
  exists w' loads,
    loadEstimateDetails env w = (Normal tt, w')
    /\ db w' = db w /\ alerts w' = alerts w
    /\ calls w' = calls w ++ loads /\ Forall is_select loads
    /\ estimateId (ui w') = estimateId (ui w)
    /\ profile (ui w') = profile (ui w)
    /\ saving (ui w') = saving (ui w)
    /\ converting (ui w') = converting (ui w)
    /\ editing (ui w') = editing (ui w).
Proof.
  unfold loadEstimateDetails.
  destruct (estimateId (ui w)) as [i|] eqn:Hid.
  2:{ exists w, []. rewrite app_nil_r, Hid. repeat split; constructor. }
  destruct (truthy_str i); simpl.
  2:{ exists w, []. rewrite app_nil_r, Hid. repeat split; constructor. }
  run_load.
  destruct (fails env (SelectEstimate i)) as [e1|];
    destruct (fails env (SelectLineItems i)) as [e2|];
    try destruct (filter _ (estimates (db w))) as [|row [|row' rest]];
    cbn [db calls alerts ui fst snd estimateId profile loading saving converting
         editing estimate lineItems];
    eexists; exists [SelectEstimate i; SelectLineItems i];
    (split; [reflexivity|]);
    cbn [db calls alerts ui fst snd estimateId profile loading saving converting
         editing estimate lineItems];
    rewrite <- ?app_assoc; repeat split; auto; repeat constructor.
Qed.

(** X9. A reload that fails tells the user nothing and keeps what is shown:
    when a select is answered with an error, or the estimate's id selects no
    row or several, the estimate and the line items in the component stay as
    they were, no alert appears, no table changes and [loading] is reset. *)
Theorem failed_reload_keeps_what_is_shown :
  forall (env : Env) (w : World) (i : jsstring),
    estimateId (ui w) = Some i -> i <> [] ->
    load_fails env i (db w) ->
    let w' := snd (loadEstimateDetails env w) in
    estimate (ui w') = estimate (ui w)
    /\ lineItems (ui w') = lineItems (ui w)
    /\ loading (ui w') = false
    /\ alerts w' = alerts w
    /\ db w' = db w.
Proof.
  intros env w i Hid Hi Hfail.
  rewrite (loadEstimateDetails_failure env w i Hid Hi Hfail). repeat split.
Qed.

Lemma failed_reload_keeps_what_is_shown_witness :
  lineItems (ui (snd (loadEstimateDetails selects_rejected
                        (editing_world (lit "Sign install") undescribed_labor))))
  = undescribed_labor.
Proof.
  apply (failed_reload_keeps_what_is_shown selects_rejected
           (editing_world (lit "Sign install") undescribed_labor) (lit "e1")).
  - reflexivity.
  - discriminate.
  - left. discriminate.
Defined.

(** X10. Cancel never writes and always leaves edit mode: whatever the
    backend answers, it issues nothing but selects, leaves every table and
    the alerts as they are and sets [editing] to false.  When the selects
    answer and find the estimate, the edited copy and the edited line items
    are replaced by the stored row and the stored line items in
    [line_order]; when the reload fails, the edited copy and the edited
    line items stay in the component. *)
Theorem cancel_restores_the_stored_state :
  forall (env : Env) (w : World),
    let w' := snd (handleCancel env w) in
    fst (handleCancel env w) = Normal tt
    /\ db w' = db w
    /\ alerts w' = alerts w
    /\ editing (ui w') = false
    /\ (exists loads, calls w' = calls w ++ loads /\ Forall is_select loads)
    /\ (forall i row,
          estimateId (ui w) = Some i -> i <> [] ->
          load_succeeds env i (db w) row ->
          calls w' = calls w ++ [SelectEstimate i; SelectLineItems i]
          /\ estimate (ui w') = Some row
          /\ lineItems (ui w') = selected_line_items i (db w))
    /\ (forall i,
          estimateId (ui w) = Some i -> i <> [] ->
          load_fails env i (db w) ->
          estimate (ui w') = estimate (ui w)
          /\ lineItems (ui w') = lineItems (ui w)).
Proof.
  intros env w. unfold handleCancel, bind, setEditing, modify_ui, modify.
  split; [|split; [|split; [|split; [|split; [|split]]]]].
  - match goal with |- context [loadEstimateDetails env ?W] =>
      destruct (loadEstimateDetails_frame env W) as (w2 & loads & E & _)
    end.
    now rewrite E.
  - match goal with |- context [loadEstimateDetails env ?W] =>
      destruct (loadEstimateDetails_frame env W) as (w2 & loads & E & Hdb & _)
    end.
    now rewrite E.
  - match goal with |- context [loadEstimateDetails env ?W] =>
      destruct (loadEstimateDetails_frame env W) as (w2 & loads & E & _ & Hal & _)
    end.
    now rewrite E.
  - match goal with |- context [loadEstimateDetails env ?W] =>
      destruct (loadEstimateDetails_frame env W)
        as (w2 & loads & E & _ & _ & _ & _ & _ & _ & _ & _ & Hed)
    end.
    now rewrite E.
  - match goal with |- context [loadEstimateDetails env ?W] =>
      destruct (loadEstimateDetails_frame env W)
        as (w2 & loads & E & _ & _ & Hca & Hsel & _)
    end.
    rewrite E. exists loads. now split.
  - intros i row Hid Hi Hok.
    rewrite (loadEstimateDetails_success env _ i row);
      [repeat split | exact Hid | exact Hi | exact Hok].
  - intros i Hid Hi Hfail.
    rewrite (loadEstimateDetails_failure env _ i);
      [repeat split | exact Hid | exact Hi | exact Hfail].
Qed.

Lemma cancel_restores_the_stored_state_witness :
  calls (snd (handleCancel calm
                (editing_world (lit "Sign install, two sides") undescribed_labor)))
  = [] ++ [SelectEstimate (lit "e1"); SelectLineItems (lit "e1")]
  /\ estimate (ui (snd (handleCancel calm
                          (editing_world (lit "Sign install, two sides")
                                         undescribed_labor))))
     = Some (blank_estimate (lit "e1") 10%float)
  /\ lineItems (ui (snd (handleCancel calm
                           (editing_world (lit "Sign install, two sides")
                                          undescribed_labor))))
     = selected_line_items (lit "e1")
         (db (editing_world (lit "Sign install, two sides") undescribed_labor)).
Proof.
  apply (proj1 (proj2 (proj2 (proj2 (proj2 (proj2
           (cancel_restores_the_stored_state calm
              (editing_world (lit "Sign install, two sides") undescribed_labor)))))))
           (lit "e1") (blank_estimate (lit "e1") 10%float)).
  - reflexivity.
  - discriminate.
  - repeat split.
Defined.

End ReloadFacts.

(** ** More on saving *)

Module SaveMoreFacts.

Import EstimateDetailModal EstimateTerms MoreTerms JsFacts TotalsFacts EditorFacts
  SaveFacts ReloadFacts.

Ltac run_save :=
  unfold bind, try_catch_finally, setSaving, setEditing, alert, modify_ui, modify,
    updateEstimate, deleteLineItems, insertLineItems, backend, throw_if_error,
    throw, ret;
  cbn [db calls alerts ui fst snd estimateId profile loading saving converting
       editing estimate lineItems estimates estimate_line_items tickets projects].

Lemma loadEstimateDetails_normal (env : Env) (w : World) :
  loadEstimateDetails env w = (Normal tt, snd (loadEstimateDetails env w)).
Proof.
  destruct (loadEstimateDetails_reads env w) as (w' & loads & E & _).
  now rewrite E.
Qed.

(** A save whose writes go through ends with the reload of the world the
    writes leave. *)
Lemma handleSave_writes_run (env : Env) (w : World) (e : EstimateDetail) :
  estimate (ui w) = Some e ->
  writes_succeed env e (lineItems (ui w)) ->
  handleSave env w
  = (Normal tt, saving_off (snd (loadEstimateDetails env (saved_world env w e)))).
Proof.
  intros He (Hupd & Hdel & Hins). unfold save_update in Hupd.
  unfold handleSave. rewrite He. run_save. rewrite Hupd.
  cbn [db calls alerts ui fst snd estimates estimate_line_items tickets projects].
  rewrite Hdel.
  cbn [db calls alerts ui fst snd estimates estimate_line_items tickets projects].
  destruct (lineItemsToInsert (est_id e) (lineItems (ui w))) as [|r rows] eqn:Hrows.
  - cbn [List.length Nat.ltb Nat.leb].
    match goal with |- context [loadEstimateDetails env ?W] =>
      replace W with (saved_world env w e)
    end.
    2:{ unfold saved_world, save_update, stored_as, map_index. rewrite Hrows.
        cbn [map_index_from]. now rewrite !app_nil_r, <- app_assoc. }
    now rewrite loadEstimateDetails_normal.
  - change (0 <? List.length (r :: rows)) with true. cbv iota.
    rewrite Hins by discriminate.
    cbn [db calls alerts ui fst snd estimates estimate_line_items tickets projects].
    match goal with |- context [loadEstimateDetails env ?W] =>
      replace W with (saved_world env w e)
    end.
    2:{ unfold saved_world, save_update, stored_as. rewrite Hrows.
        now rewrite <- !app_assoc. }
    now rewrite loadEstimateDetails_normal.
Qed.

Lemma filter_map_commute {A : Type} (p : A -> bool) (g : A -> A) (l : list A) :
  (forall x, p (g x) = p x) -> filter p (map g l) = map g (filter p l).
Proof.
  intros Hg. induction l as [|x l IH]; simpl; [reflexivity|].
  rewrite Hg. destruct (p x); simpl; now rewrite IH.
Qed.

Lemma est_id_apply_patch (p : EstimatePatch) (r : EstimateDetail) :
  est_id (apply_patch p r) = est_id r.
Proof. destruct r, p; reflexivity. Qed.

Lemma estimates_with_id_patched (p : EstimatePatch) (i : jsstring)
  (rows : list EstimateDetail) :
  filter (fun r => str_eqb (est_id r) i)
         (map (fun r => if str_eqb (est_id r) i then apply_patch p r else r) rows)
  = map (apply_patch p) (filter (fun r => str_eqb (est_id r) i) rows).
Proof.
  induction rows as [|r rows IH]; simpl; [reflexivity|].
  destruct (str_eqb (est_id r) i) eqn:E; simpl.
  - rewrite est_id_apply_patch, E. simpl. now rewrite IH.
  - rewrite E. exact IH.
Qed.

Lemma other_estimates_patched (p : EstimatePatch) (i : jsstring)
  (rows : list EstimateDetail) :
  other_estimates i
    (map (fun r => if str_eqb (est_id r) i then apply_patch p r else r) rows)
  = other_estimates i rows.
Proof.
  unfold other_estimates. induction rows as [|r rows IH]; simpl; [reflexivity|].
  destruct (str_eqb (est_id r) i) eqn:E; simpl.
  - rewrite est_id_apply_patch, E. simpl. exact IH.
  - rewrite E. simpl. now rewrite IH.
Qed.

Lemma rows_of_rows_of_others (i : jsstring) (rows : list StoredLineItem) :
  rows_of i (rows_of_others i rows) = [].
Proof.
  unfold rows_of, rows_of_others. induction rows as [|r rows IH]; simpl; [reflexivity|].
  destruct (str_eqb (row_estimate_id (stored_row r)) i) eqn:E; simpl; [exact IH|].
  now rewrite E.
Qed.

Lemma rows_of_others_idem (i : jsstring) (rows : list StoredLineItem) :
  rows_of_others i (rows_of_others i rows) = rows_of_others i rows.
Proof.
  unfold rows_of_others. induction rows as [|r rows IH]; simpl; [reflexivity|].
  destruct (str_eqb (row_estimate_id (stored_row r)) i) eqn:E; simpl; [exact IH|].
  rewrite E. simpl. now rewrite IH.
Qed.

Lemma stored_rows_reloaded (env : Env) (i : jsstring) (l : list LineItem) :
  forall k,
    map as_LineItem
      (rows_of i
         (map_index_from (fun n r => mkStoredLineItem (new_id env n) r) k
            (map_index_from (to_row i) k l)))
    = map_index_from (reloaded env) k l.
Proof.
  unfold rows_of. induction l as [|x l IH]; intros k; simpl; [reflexivity|].
  rewrite str_eqb_refl. simpl. now rewrite IH.
Qed.

Lemma rows_of_others_stored (env : Env) (i : jsstring) (l : list LineItem) :
  forall k,
    rows_of_others i
      (map_index_from (fun n r => mkStoredLineItem (new_id env n) r) k
         (map_index_from (to_row i) k l))
    = [].
Proof.
  unfold rows_of_others. induction l as [|x l IH]; intros k; simpl; [reflexivity|].
  rewrite str_eqb_refl. simpl. apply IH.
Qed.

Lemma reloaded_in_order (env : Env) (l : list LineItem) :
  forall k,
    order_by_line_order (map_index_from (reloaded env) k l)
    = map_index_from (reloaded env) k l.
Proof.
  unfold order_by_line_order.
  induction l as [|x l IH]; intros k; simpl; [reflexivity|].
  rewrite IH. destruct l as [|y l]; simpl; [reflexivity|].
  assert (E : (k <=? S k) = true) by (apply Nat.leb_le; lia).
  now rewrite E.
Qed.

(** The line items the select finds after the writes of a save. *)
Lemma selected_after_save (env : Env) (w : World) (e : EstimateDetail) :
  selected_line_items (est_id e) (db (saved_world env w e))
  = map_index (reloaded env) (described (lineItems (ui w))).
Proof.
  unfold selected_line_items, saved_world. cbn [db estimate_line_items].
  rewrite filter_app. fold (rows_of (est_id e)
                              (rows_of_others (est_id e) (estimate_line_items (db w)))).
  rewrite rows_of_rows_of_others. cbn [app].
  unfold stored_as, lineItemsToInsert, map_index.
  rewrite has_description_described.
  fold (rows_of (est_id e)
          (map_index_from (fun k r => mkStoredLineItem (new_id env k) r) 0
             (map_index_from (to_row (est_id e)) 0 (described (lineItems (ui w)))))).
  rewrite stored_rows_reloaded. apply reloaded_in_order.
Qed.

(** The state and the stored header after a save that went through and a
    reload that found the estimate. *)
Lemma saved_items_are_shown_after_save_aux (env : Env) (w : World)
  (e row : EstimateDetail) :
  estimate (ui w) = Some e ->
  estimateId (ui w) = Some (est_id e) ->
  est_id e <> [] ->
  writes_succeed env e (lineItems (ui w)) ->
  load_succeeds env (est_id e) (db w) row ->
  let row' := apply_patch
                (Header (header_patch e (calculateTotals (lineItems (ui w)) (Some e))))
                row in
  let w' := snd (handleSave env w) in
  lineItems (ui w') = map_index (reloaded env) (described (lineItems (ui w)))
  /\ estimate (ui w') = Some row'
  /\ estimates_with_id (est_id e) (db w') = [row'].
Proof.
  intros He Hid Hne Hwrites (Hs1 & Hs2 & Hrow).
  assert (Hrow' : estimates_with_id (est_id e) (db (saved_world env w e))
                  = [apply_patch
                       (Header (header_patch e
                                  (calculateTotals (lineItems (ui w)) (Some e))))
                       row]).
  { unfold estimates_with_id, saved_world, with_saved_header in *. cbn [db estimates].
    rewrite estimates_with_id_patched, Hrow. reflexivity. }
  cbv zeta.
  rewrite (handleSave_writes_run env w e He Hwrites).
  rewrite (loadEstimateDetails_success env (saved_world env w e) (est_id e) _ Hid Hne
             (conj Hs1 (conj Hs2 Hrow'))).
  cbn [snd saving_off after_selects loaded_ui ui lineItems estimate db].
  rewrite selected_after_save. repeat split. exact Hrow'.
Qed.

(** X11. What is saved is what is shown afterwards.  When the writes of a
    save go through and the reload finds the estimate, the editor shows the
    stored header with the header fields and totals of the save, and as line
    items the saved ones in their order: the item at position [k] comes
    back with the backend's id, [line_order = k], its type, description,
    quantity, unit price and line total, and the labor fields of a 'labor'
    item.  Edit mode is left and [saving] and [loading] are reset. *)
Theorem saved_items_are_shown_after_save :
  forall (env : Env) (w : World) (e row : EstimateDetail),
    estimate (ui w) = Some e ->
    estimateId (ui w) = Some (est_id e) ->
    est_id e <> [] ->
    writes_succeed env e (lineItems (ui w)) ->
    load_succeeds env (est_id e) (db w) row ->
    let w' := snd (handleSave env w) in
    lineItems (ui w') = map_index (reloaded env) (described (lineItems (ui w)))
    /\ estimate (ui w')
       = Some (apply_patch
                 (Header (header_patch e (calculateTotals (lineItems (ui w)) (Some e))))
                 row)
    /\ editing (ui w') = false
    /\ saving (ui w') = false
    /\ loading (ui w') = false
    /\ alerts w' = alerts w.
Proof.
  intros env w e row He Hid Hne Hwrites (Hs1 & Hs2 & Hrow).
  rewrite (handleSave_writes_run env w e He Hwrites).
  rewrite (loadEstimateDetails_success env (saved_world env w e) (est_id e)
             (apply_patch
                (Header (header_patch e (calculateTotals (lineItems (ui w)) (Some e))))
                row)).
  - cbn [snd saving_off after_selects loaded_ui ui lineItems estimate editing saving
         loading alerts].
    rewrite selected_after_save. repeat split.
  - exact Hid.
  - exact Hne.
  - repeat split; auto.
    unfold estimates_with_id, saved_world, with_saved_header in *. cbn [db estimates].
    rewrite estimates_with_id_patched, Hrow. reflexivity.
Qed.

Lemma saved_items_are_shown_after_save_witness :
  lineItems (ui (snd (handleSave calm
                        (editing_world (lit "Sign install") undescribed_labor))))
  = map_index (reloaded calm) (described undescribed_labor).
Proof.
  eapply (saved_items_are_shown_after_save calm
            (editing_world (lit "Sign install") undescribed_labor)).
  - reflexivity.
  - reflexivity.
  - discriminate.
  - repeat split.
  - repeat split.
Defined.

Lemma fold_left_reloaded (env : Env) (step : number -> LineItem -> number)
  (l : list LineItem) :
  (forall acc k item, step acc (reloaded env k item) = step acc item) ->
  forall k acc,
    fold_left step (map_index_from (reloaded env) k l) acc = fold_left step l acc.
Proof.
  intros Hstep. induction l as [|x l IH]; intros k acc; simpl; [reflexivity|].
  now rewrite Hstep, IH.
Qed.

Lemma described_all (l : list LineItem) :
  Forall (fun item => has_description item = true) l -> described l = l.
Proof.
  rewrite <- has_description_described.
  induction 1 as [|x l Hx Hl IH]; simpl; [reflexivity|].
  now rewrite Hx, IH.
Qed.

Lemma header_patch_totals (e row : EstimateDetail) (t : Totals) :
  let row' := apply_patch (Header (header_patch e t)) row in
  subtotal row' = t_subtotal t /\ tax_amount row' = t_taxAmount t
  /\ total_amount row' = t_total t /\ tax_rate row' = tax_rate e.
Proof. destruct row. repeat split. Qed.

(** X12. When every line item has a description, the stored totals can be
    derived again from what is shown after the save: the stored subtotal,
    tax amount and total are those [calculateTotals] computes from the
    reloaded line items and the reloaded estimate. *)
Theorem described_items_keep_stored_totals_derivable :
  forall (env : Env) (w : World) (e row : EstimateDetail),
    estimate (ui w) = Some e ->
    estimateId (ui w) = Some (est_id e) ->
    est_id e <> [] ->
    writes_succeed env e (lineItems (ui w)) ->
    load_succeeds env (est_id e) (db w) row ->
    Forall (fun item => has_description item = true) (lineItems (ui w)) ->
    let w' := snd (handleSave env w) in
    exists row',
      estimate (ui w') = Some row'
      /\ estimates_with_id (est_id e) (db w') = [row']
      /\ subtotal row' = t_subtotal (calculateTotals (lineItems (ui w')) (Some row'))
      /\ tax_amount row' = t_taxAmount (calculateTotals (lineItems (ui w')) (Some row'))
      /\ total_amount row' = t_total (calculateTotals (lineItems (ui w')) (Some row')).
Proof.
  intros env w e row He Hid Hne Hwrites Hload Hdesc w'.
  destruct (saved_items_are_shown_after_save_aux env w e row He Hid Hne Hwrites Hload)
    as (Hitems & Hest & Hdb).
  fold w' in Hitems, Hest, Hdb.
  eexists. split; [exact Hest|]. split; [exact Hdb|].
  rewrite Hitems, (described_all _ Hdesc).
  set (t := calculateTotals (lineItems (ui w)) (Some e)).
  destruct (header_patch_totals e row t) as (H1 & H2 & H3 & H4).
  assert (Ht : calculateTotals (map_index (reloaded env) (lineItems (ui w)))
                 (Some (apply_patch (Header (header_patch e t)) row)) = t).
  { unfold calculateTotals, map_index. cbn [option_map]. rewrite H4.
    rewrite !fold_left_reloaded; reflexivity. }
  rewrite Ht. auto.
Qed.


Lemma described_items_keep_stored_totals_derivable_witness :
  exists row',
    estimate (ui (snd (handleSave calm (editing_world (lit "Sign install") example_items))))
    = Some row'
    /\ estimates_with_id (lit "e1")
         (db (snd (handleSave calm (editing_world (lit "Sign install") example_items))))
       = [row']
    /\ subtotal row'
       = t_subtotal
           (calculateTotals
              (lineItems (ui (snd (handleSave calm
                                     (editing_world (lit "Sign install") example_items)))))
              (Some row'))
    /\ tax_amount row'
       = t_taxAmount
           (calculateTotals
              (lineItems (ui (snd (handleSave calm
                                     (editing_world (lit "Sign install") example_items)))))
              (Some row'))
    /\ total_amount row'
       = t_total
           (calculateTotals
              (lineItems (ui (snd (handleSave calm
                                     (editing_world (lit "Sign install") example_items)))))
              (Some row')).
Proof.
  apply (described_items_keep_stored_totals_derivable calm
           (editing_world (lit "Sign install") example_items)
           (edited_estimate (lit "Sign install")) (blank_estimate (lit "e1") 10%float)).
  - reflexivity.
  - reflexivity.
  - discriminate.
  - repeat split.
  - repeat split.
  - repeat constructor.
Defined.

Lemma or_null_idem (x : option jsstring) : or_null (or_null x) = or_null x.
Proof. destruct x as [[|c s]|]; reflexivity. Qed.

Lemma to_row_reloaded (env : Env) (i : jsstring) (k : nat) (item : LineItem) :
  to_row i k (reloaded env k item) = to_row i k item.
Proof.
  unfold to_row, reloaded; cbn. now rewrite !or_null_idem.
Qed.

Lemma reloaded_described (env : Env) (l : list LineItem) :
  Forall (fun item => has_description item = true) l ->
  forall k,
    filter has_description (map_index_from (reloaded env) k l)
    = map_index_from (reloaded env) k l.
Proof.
  induction 1 as [|x l Hx Hl IH]; intros k; simpl; [reflexivity|].
  change (has_description (reloaded env k x)) with (has_description x).
  now rewrite Hx, IH.
Qed.

Lemma to_row_over_reloaded (env : Env) (i : jsstring) (l : list LineItem) :
  forall k,
    map_index_from (to_row i) k (map_index_from (reloaded env) k l)
    = map_index_from (to_row i) k l.
Proof.
  induction l as [|x l IH]; intros k; simpl; [reflexivity|].
  now rewrite to_row_reloaded, IH.
Qed.

(** X13. Saving what came back from a save writes the same rows again: the
    line items shown after a save all pass the filter, and the rows built
    from them are the rows the save inserted. *)
Theorem saving_again_inserts_the_same_rows :
  forall (env : Env) (i : jsstring) (items : list LineItem),
    let shown := map_index (reloaded env) (described items) in
    described shown = shown
    /\ lineItemsToInsert i shown = lineItemsToInsert i items.
Proof.
  intros env i items shown. subst shown.
  assert (Hall : Forall (fun item => has_description item = true) (described items)).
  { rewrite <- has_description_described. apply Forall_forall.
    intros x Hx. apply filter_In in Hx. tauto. }
  unfold lineItemsToInsert, map_index.
  rewrite <- (has_description_described (map_index_from _ _ _)).
  rewrite (reloaded_described env _ Hall).
  split; [reflexivity|].
  rewrite to_row_over_reloaded. now rewrite has_description_described.
Qed.

(** *** Failures and frames *)

(** The world a save leaves when the header update, the delete or the
    insert fails. *)
Lemma handleSave_update_fails (env : Env) (w : World) (e : EstimateDetail)
  (err : PgError) :
  estimate (ui w) = Some e ->
  fails env (save_update e (lineItems (ui w))) = Some err ->
  handleSave env w
  = (Normal tt,
     saving_off (mkWorld (db w) (calls w ++ [save_update e (lineItems (ui w))])
                         (alerts w ++ [save_failed]) (ui w))).
Proof.
  intros He Hupd. unfold save_update in *.
  unfold handleSave. rewrite He. run_save. rewrite Hupd. reflexivity.
Qed.

Lemma handleSave_delete_fails (env : Env) (w : World) (e : EstimateDetail)
  (err : PgError) :
  estimate (ui w) = Some e ->
  fails env (save_update e (lineItems (ui w))) = None ->
  fails env (DeleteLineItems (est_id e)) = Some err ->
  handleSave env w
  = (Normal tt,
     saving_off
       (mkWorld (mkDB (with_saved_header e (lineItems (ui w)) (estimates (db w)))
                      (estimate_line_items (db w)) (tickets (db w)) (projects (db w)))
                (calls w ++ [save_update e (lineItems (ui w));
                             DeleteLineItems (est_id e)])
                (alerts w ++ [save_failed]) (ui w))).
Proof.
  intros He Hupd Hdel. unfold save_update in *.
  unfold handleSave. rewrite He. run_save. rewrite Hupd.
  cbn [db calls alerts ui fst snd estimates estimate_line_items tickets projects].
  rewrite Hdel.
  cbn [db calls alerts ui fst snd estimates estimate_line_items tickets projects].
  unfold saving_off, with_saved_header.
  cbn [db calls alerts ui fst snd estimateId profile loading saving converting
       editing estimate lineItems].
  now rewrite <- app_assoc.
Qed.

Lemma handleSave_insert_fails (env : Env) (w : World) (e : EstimateDetail)
  (err : PgError) :
  estimate (ui w) = Some e ->
  fails env (save_update e (lineItems (ui w))) = None ->
  fails env (DeleteLineItems (est_id e)) = None ->
  lineItemsToInsert (est_id e) (lineItems (ui w)) <> [] ->
  fails env (InsertLineItems (lineItemsToInsert (est_id e) (lineItems (ui w)))) = Some err ->
  handleSave env w
  = (Normal tt,
     saving_off
       (mkWorld (mkDB (with_saved_header e (lineItems (ui w)) (estimates (db w)))
                      (rows_of_others (est_id e) (estimate_line_items (db w)))
                      (tickets (db w)) (projects (db w)))
                (calls w ++ [save_update e (lineItems (ui w));
                             DeleteLineItems (est_id e);
                             InsertLineItems
                               (lineItemsToInsert (est_id e) (lineItems (ui w)))])
                (alerts w ++ [save_failed]) (ui w))).
Proof.
  intros He Hupd Hdel Hrows Hins. unfold save_update in *.
  unfold handleSave. rewrite He. run_save. rewrite Hupd.
  cbn [db calls alerts ui fst snd estimates estimate_line_items tickets projects].
  rewrite Hdel.
  cbn [db calls alerts ui fst snd estimates estimate_line_items tickets projects].
  destruct (lineItemsToInsert (est_id e) (lineItems (ui w))) as [|r rows] eqn:E;
    [congruence|].
  change (0 <? List.length (r :: rows)) with true. cbv iota. rewrite Hins.
  cbn [db calls alerts ui fst snd estimates estimate_line_items tickets projects].
  unfold saving_off, with_saved_header, rows_of_others.
  cbn [db calls alerts ui fst snd estimateId profile loading saving converting
       editing estimate lineItems].
  now rewrite <- !app_assoc.
Qed.

(** X14. If the insert of a save fails, the estimate is left with the new
    header and with no line items at all: the old rows are deleted, nothing
    puts them back, the user is told that the save failed and the editor
    stays in edit mode with its line items. *)
Theorem insert_failure_leaves_no_line_items :
  forall (env : Env) (w : World) (e : EstimateDetail) (err : PgError),
    estimate (ui w) = Some e ->
    fails env (save_update e (lineItems (ui w))) = None ->
    fails env (DeleteLineItems (est_id e)) = None ->
    lineItemsToInsert (est_id e) (lineItems (ui w)) <> [] ->
    fails env (InsertLineItems (lineItemsToInsert (est_id e) (lineItems (ui w))))
    = Some err ->
    let w' := snd (handleSave env w) in
    rows_of (est_id e) (estimate_line_items (db w')) = []
    /\ estimate_line_items (db w')
       = rows_of_others (est_id e) (estimate_line_items (db w))
    /\ estimates (db w') = with_saved_header e (lineItems (ui w)) (estimates (db w))
    /\ alerts w' = alerts w ++ [save_failed]
    /\ lineItems (ui w') = lineItems (ui w)
    /\ editing (ui w') = editing (ui w)
    /\ saving (ui w') = false.
Proof.
  intros env w e err He Hupd Hdel Hrows Hins.
  rewrite (handleSave_insert_fails env w e err He Hupd Hdel Hrows Hins).
  cbn [snd saving_off db estimate_line_items estimates alerts ui lineItems editing
       saving].
  split; [apply rows_of_rows_of_others | repeat split].
Qed.

Lemma insert_failure_leaves_no_line_items_witness :
  rows_of (lit "e1")
    (estimate_line_items
       (db (snd (handleSave insert_rejected
                   (editing_world (lit "Sign install") example_items)))))
  = [].
Proof.
  eapply (insert_failure_leaves_no_line_items insert_rejected
            (editing_world (lit "Sign install") example_items)).
  - reflexivity.
  - reflexivity.
  - reflexivity.
  - discriminate.
  - reflexivity.
Defined.

(** X15. A save with nothing but blank descriptions raises no alert: when
    no item has a description left after trimming and the header update and
    the delete go through, the handler completes normally, no insert is
    issued, the estimate ends with no line items, no alert is shown to the
    user and edit mode is left.  (What the handler does in this branch
    besides is a console warning.) *)
Theorem blank_save_raises_no_alert :
  forall (env : Env) (w : World) (e : EstimateDetail),
    estimate (ui w) = Some e ->
    fails env (save_update e (lineItems (ui w))) = None ->
    fails env (DeleteLineItems (est_id e)) = None ->
    described (lineItems (ui w)) = [] ->
    let w' := snd (handleSave env w) in
    fst (handleSave env w) = Normal tt
    /\ alerts w' = alerts w
    /\ rows_of (est_id e) (estimate_line_items (db w')) = []
    /\ editing (ui w') = false
    /\ exists loads,
         calls w' = calls w
                    ++ [save_update e (lineItems (ui w)); DeleteLineItems (est_id e)]
                    ++ loads
         /\ Forall is_select loads.
Proof.
  intros env w e He Hupd Hdel Hblank.
  assert (Hrows : lineItemsToInsert (est_id e) (lineItems (ui w)) = []).
  { unfold lineItemsToInsert. now rewrite has_description_described, Hblank. }
  assert (Hw : writes_succeed env e (lineItems (ui w))).
  { repeat split; auto. intros H. now contradiction H. }
  rewrite (handleSave_writes_run env w e He Hw).
  destruct (loadEstimateDetails_frame env (saved_world env w e))
    as (w2 & loads & E & Hdb & Hal & Hca & Hsel & _ & _ & _ & _ & Hed).
  rewrite E. cbn [fst snd saving_off db alerts calls ui editing].
  rewrite Hdb, Hal, Hca, Hed. unfold saved_world.
  cbn [db alerts calls ui editing estimate_line_items]. rewrite Hrows.
  unfold stored_as, map_index. cbn [map_index_from]. rewrite !app_nil_r.
  split; [reflexivity|]. split; [reflexivity|].
  split; [apply rows_of_rows_of_others|]. split; [reflexivity|].
  exists loads. now rewrite <- app_assoc.
Qed.

Lemma blank_save_raises_no_alert_witness :
  alerts (snd (handleSave calm
                 (editing_world (lit "Sign install") (addLineItem (lit "n1") []))))
  = [].
Proof.
  eapply (blank_save_raises_no_alert calm
            (editing_world (lit "Sign install") (addLineItem (lit "n1") []))).
  - reflexivity.
  - reflexivity.
  - reflexivity.
  - reflexivity.
Defined.

Lemma rows_of_others_saved (env : Env) (i : jsstring) (items : list LineItem)
  (rows : list StoredLineItem) :
  rows_of_others i (rows_of_others i rows ++ stored_as env (lineItemsToInsert i items))
  = rows_of_others i rows.
Proof.
  unfold rows_of_others at 1. rewrite filter_app.
  fold (rows_of_others i (rows_of_others i rows)).
  fold (rows_of_others i (stored_as env (lineItemsToInsert i items))).
  rewrite rows_of_others_idem. unfold stored_as, lineItemsToInsert, map_index.
  now rewrite rows_of_others_stored, app_nil_r.
Qed.

(** X16. A save stays within its estimate and always comes back: whatever
    the backend answers, [handleSave] completes without throwing and resets
    [saving]; it never changes a ticket or a project, the line items of any
    other estimate, or the row of any other estimate. *)
Theorem save_touches_only_its_estimate :
  forall (env : Env) (w : World) (e : EstimateDetail),
    estimate (ui w) = Some e ->
    let w' := snd (handleSave env w) in
    fst (handleSave env w) = Normal tt
    /\ saving (ui w') = false
    /\ tickets (db w') = tickets (db w)
    /\ projects (db w') = projects (db w)
    /\ rows_of_others (est_id e) (estimate_line_items (db w'))
       = rows_of_others (est_id e) (estimate_line_items (db w))
    /\ other_estimates (est_id e) (estimates (db w'))
       = other_estimates (est_id e) (estimates (db w)).
Proof.
  intros env w e He.
  destruct (fails env (save_update e (lineItems (ui w)))) as [err|] eqn:Hupd.
  { rewrite (handleSave_update_fails env w e err He Hupd). repeat split. }
  destruct (fails env (DeleteLineItems (est_id e))) as [err|] eqn:Hdel.
  { rewrite (handleSave_delete_fails env w e err He Hupd Hdel).
    cbn [fst snd saving_off db ui saving tickets projects estimate_line_items
         estimates].
    unfold with_saved_header. rewrite other_estimates_patched. repeat split. }
  assert (Hok : writes_succeed env e (lineItems (ui w)) ->
                let w' := snd (handleSave env w) in
                fst (handleSave env w) = Normal tt
                /\ saving (ui w') = false
                /\ tickets (db w') = tickets (db w)
                /\ projects (db w') = projects (db w)
                /\ rows_of_others (est_id e) (estimate_line_items (db w'))
                   = rows_of_others (est_id e) (estimate_line_items (db w))
                /\ other_estimates (est_id e) (estimates (db w'))
                   = other_estimates (est_id e) (estimates (db w))).
  { intros Hw. rewrite (handleSave_writes_run env w e He Hw).
    destruct (loadEstimateDetails_frame env (saved_world env w e))
      as (w2 & loads & E & Hdb & _).
    rewrite E. cbn [fst snd saving_off db ui saving]. rewrite Hdb.
    unfold saved_world, with_saved_header.
    cbn [db tickets projects estimate_line_items estimates].
    rewrite rows_of_others_saved, other_estimates_patched. repeat split. }
  destruct (lineItemsToInsert (est_id e) (lineItems (ui w))) as [|r rows] eqn:Hrows.
  { apply Hok. repeat split; auto. rewrite Hrows. intros H. now contradiction H. }
  destruct (fails env (InsertLineItems (r :: rows))) as [err|] eqn:Hins.
  - rewrite <- Hrows in Hins.
    rewrite (handleSave_insert_fails env w e err He Hupd Hdel); auto.
    2:{ rewrite Hrows. discriminate. }
    cbn [fst snd saving_off db ui saving tickets projects estimate_line_items
         estimates].
    unfold with_saved_header.
    rewrite rows_of_others_idem, other_estimates_patched. repeat split.
  - apply Hok. repeat split; auto. now rewrite Hrows.
Qed.

Lemma save_touches_only_its_estimate_witness :
  saving (ui (snd (handleSave delete_rejected
                     (editing_world (lit "Sign install") example_items))))
  = false.
Proof.
  eapply (save_touches_only_its_estimate delete_rejected
            (editing_world (lit "Sign install") example_items)).
  reflexivity.
Defined.

End SaveMoreFacts.

(** ** More on conversion *)

Module ConvertMoreFacts.

Import EstimateDetailModal EstimateTerms MoreTerms JsFacts TotalsFacts EditorFacts
  SaveFacts ConvertFacts ReloadFacts SaveMoreFacts.

Ltac run_convert :=
  unfold bind, try_catch_finally, setConverting, alert, modify_ui, modify,
    updateEstimate, insertTicket, insertProject, backend, throw_if_error, throw, ret;
  cbn [db calls alerts ui fst snd estimateId profile loading saving converting
       editing estimate lineItems estimates estimate_line_items tickets projects
       ticket_id project_id negb].

(** X17. A conversion is not atomic.  If the insert fails, nothing is
    written.  If the insert goes through and the update of the estimate
    fails, the new ticket (or project) stays in its table while the estimate
    keeps its status and carries no reference to it; the user is told that
    the conversion failed, and the copy in the component is unchanged, so
    the footer offers the conversion again. *)
Theorem failed_stamp_leaves_an_orphan :
  forall (env : Env) (w : World) (e : EstimateDetail) (p : Profile) (err : PgError),
    estimate (ui w) = Some e ->
    profile (ui w) = Some p ->
    confirm_answer env = true ->
    (fails env (InsertTicket (ticket_of_estimate e p)) = Some err ->
     snd (handleConvertToTicket env w)
     = converting_off
         (mkWorld (db w) (calls w ++ [InsertTicket (ticket_of_estimate e p)])
                  (alerts w ++ [ticket_failed]) (ui w)))
    /\ (fails env (InsertTicket (ticket_of_estimate e p)) = None ->
        fails env (stamp_ticket env e) = Some err ->
        let w' := snd (handleConvertToTicket env w) in
        tickets (db w') = tickets (db w) ++ [new_ticket env e p]
        /\ estimates (db w') = estimates (db w)
        /\ alerts w' = alerts w ++ [ticket_failed]
        /\ estimate (ui w') = Some e
        /\ converting (ui w') = false)
    /\ (fails env (InsertProject (project_of_estimate e p)) = Some err ->
        snd (handleConvertToProject env w)
        = converting_off
            (mkWorld (db w) (calls w ++ [InsertProject (project_of_estimate e p)])
                     (alerts w ++ [project_failed]) (ui w)))
    /\ (fails env (InsertProject (project_of_estimate e p)) = None ->
        fails env (stamp_project env e) = Some err ->
        let w' := snd (handleConvertToProject env w) in
        projects (db w') = projects (db w) ++ [new_project env e p]
        /\ estimates (db w') = estimates (db w)
        /\ alerts w' = alerts w ++ [project_failed]
        /\ estimate (ui w') = Some e
        /\ converting (ui w') = false).
Proof.
  intros env w e p err He Hp Hc. unfold stamp_ticket, stamp_project.
  split; [|split; [|split]].
  - intros Hins. unfold handleConvertToTicket. rewrite He, Hp, Hc.
    run_convert. rewrite Hins. reflexivity.
  - intros Hins Hupd. unfold handleConvertToTicket. rewrite He, Hp, Hc.
    run_convert. rewrite Hins.
    cbn [db calls alerts ui fst snd ticket_id]. rewrite Hupd.
    cbn [db calls alerts ui fst snd estimates tickets estimate converting].
    repeat split. exact He.
  - intros Hins. unfold handleConvertToProject. rewrite He, Hp, Hc.
    run_convert. rewrite Hins. reflexivity.
  - intros Hins Hupd. unfold handleConvertToProject. rewrite He, Hp, Hc.
    run_convert. rewrite Hins.
    cbn [db calls alerts ui fst snd project_id]. rewrite Hupd.
    cbn [db calls alerts ui fst snd estimates projects estimate converting].
    repeat split. exact He.
Qed.

Lemma failed_stamp_leaves_an_orphan_witness :
  tickets (db (snd (handleConvertToTicket stamp_rejected
                      (viewing_world stale_copy stale_copy []))))
  = [] ++ [new_ticket stamp_rejected stale_copy (mkProfile (lit "user-1"))]
  /\ estimates (db (snd (handleConvertToTicket stamp_rejected
                           (viewing_world stale_copy stale_copy []))))
     = [stale_copy]
  /\ alerts (snd (handleConvertToTicket stamp_rejected
                    (viewing_world stale_copy stale_copy [])))
     = [] ++ [ticket_failed]
  /\ estimate (ui (snd (handleConvertToTicket stamp_rejected
                          (viewing_world stale_copy stale_copy []))))
     = Some stale_copy
  /\ converting (ui (snd (handleConvertToTicket stamp_rejected
                            (viewing_world stale_copy stale_copy []))))
     = false.
Proof.
  apply (proj1 (proj2 (failed_stamp_leaves_an_orphan stamp_rejected
                         (viewing_world stale_copy stale_copy []) stale_copy
                         (mkProfile (lit "user-1")) refused
                         eq_refl eq_refl eq_refl)));
    reflexivity.
Defined.

Lemma handleConvertToTicket_run (env : Env) (w : World) (e : EstimateDetail)
  (p : Profile) :
  estimate (ui w) = Some e -> profile (ui w) = Some p -> confirm_answer env = true ->
  fails env (InsertTicket (ticket_of_estimate e p)) = None ->
  fails env (stamp_ticket env e) = None ->
  handleConvertToTicket env w
  = (Normal tt, converting_off (snd (loadEstimateDetails env (ticket_world env w e p)))).
Proof.
  intros He Hp Hc Hins Hupd. unfold stamp_ticket in Hupd.
  unfold handleConvertToTicket. rewrite He, Hp, Hc.
  run_convert. rewrite Hins. cbn [db calls alerts ui fst snd ticket_id]. rewrite Hupd.
  cbn [db calls alerts ui fst snd estimates tickets projects estimate_line_items].
  match goal with |- context [loadEstimateDetails env ?W] =>
    replace W with (ticket_world env w e p)
  end.
  2:{ unfold ticket_world, with_patch, stamp_ticket, new_ticket.
      now rewrite <- app_assoc. }
  now rewrite loadEstimateDetails_normal.
Qed.

Lemma handleConvertToProject_run (env : Env) (w : World) (e : EstimateDetail)
  (p : Profile) :
  estimate (ui w) = Some e -> profile (ui w) = Some p -> confirm_answer env = true ->
  fails env (InsertProject (project_of_estimate e p)) = None ->
  fails env (stamp_project env e) = None ->
  handleConvertToProject env w
  = (Normal tt, converting_off (snd (loadEstimateDetails env (project_world env w e p)))).
Proof.
  intros He Hp Hc Hins Hupd. unfold stamp_project in Hupd.
  unfold handleConvertToProject. rewrite He, Hp, Hc.
  run_convert. rewrite Hins. cbn [db calls alerts ui fst snd project_id]. rewrite Hupd.
  cbn [db calls alerts ui fst snd estimates tickets projects estimate_line_items].
  match goal with |- context [loadEstimateDetails env ?W] =>
    replace W with (project_world env w e p)
  end.
  2:{ unfold project_world, with_patch, stamp_project, new_project.
      now rewrite <- app_assoc. }
  now rewrite loadEstimateDetails_normal.
Qed.

Lemma footer_of_converted (r : EstimateDetail) (t d : jsstring) :
  footer_buttons (apply_patch (ConvertedToTicket t d) r) = []
  /\ footer_buttons (apply_patch (ConvertedToProject t d) r) = [].
Proof. destruct r. split; reflexivity. Qed.

(** X18. Once converted, the estimate offers nothing more.  After a
    conversion that went through and a reload that found the estimate, the
    component shows the row with status 'converted' and the reference to the
    new ticket (or project), and the footer renders none of its buttons:
    neither conversion can be started again from this modal. *)
Theorem converted_estimate_offers_nothing :
  forall (env : Env) (w : World) (e row : EstimateDetail) (p : Profile),
    estimate (ui w) = Some e ->
    profile (ui w) = Some p ->
    confirm_answer env = true ->
    estimateId (ui w) = Some (est_id e) ->
    est_id e <> [] ->
    load_succeeds env (est_id e) (db w) row ->
    (fails env (InsertTicket (ticket_of_estimate e p)) = None ->
     fails env (stamp_ticket env e) = None ->
     let w' := snd (handleConvertToTicket env w) in
     exists shown,
       estimate (ui w') = Some shown
       /\ status shown = lit "converted"
       /\ converted_to_ticket_id shown = Some (new_id env 0)
       /\ footer_buttons shown = []
       /\ converting (ui w') = false)
    /\ (fails env (InsertProject (project_of_estimate e p)) = None ->
        fails env (stamp_project env e) = None ->
        let w' := snd (handleConvertToProject env w) in
        exists shown,
          estimate (ui w') = Some shown
          /\ status shown = lit "converted"
          /\ converted_to_project_id shown = Some (new_id env 0)
          /\ footer_buttons shown = []
          /\ converting (ui w') = false).
Proof.
  intros env w e row p He Hp Hc Hid Hne (Hs1 & Hs2 & Hrow). split.
  - intros Hins Hupd.
    rewrite (handleConvertToTicket_run env w e p He Hp Hc Hins Hupd).
    rewrite (loadEstimateDetails_success env (ticket_world env w e p) (est_id e)
               (apply_patch (ConvertedToTicket (new_id env 0) (now env)) row) Hid Hne).
    + cbn [snd converting_off after_selects loaded_ui ui estimate converting].
      eexists. split; [reflexivity|].
      destruct (converted_to_ticket_stamp (new_id env 0) (now env) row) as (H1 & H2 & _).
      repeat split; auto. apply footer_of_converted.
    + repeat split; auto.
      unfold estimates_with_id, ticket_world, with_patch in *. cbn [db estimates].
      now rewrite estimates_with_id_patched, Hrow.
  - intros Hins Hupd.
    rewrite (handleConvertToProject_run env w e p He Hp Hc Hins Hupd).
    rewrite (loadEstimateDetails_success env (project_world env w e p) (est_id e)
               (apply_patch (ConvertedToProject (new_id env 0) (now env)) row) Hid Hne).
    + cbn [snd converting_off after_selects loaded_ui ui estimate converting].
      eexists. split; [reflexivity|].
      destruct (converted_to_project_stamp (new_id env 0) (now env) row) as (H1 & H2 & _).
      repeat split; auto. apply footer_of_converted.
    + repeat split; auto.
      unfold estimates_with_id, project_world, with_patch in *. cbn [db estimates].
      now rewrite estimates_with_id_patched, Hrow.
Qed.

Lemma converted_estimate_offers_nothing_witness :
  exists shown,
    estimate (ui (snd (handleConvertToProject calm
                         (viewing_world stale_copy stale_copy []))))
    = Some shown
    /\ status shown = lit "converted"
    /\ converted_to_project_id shown = Some (new_id calm 0)
    /\ footer_buttons shown = []
    /\ converting (ui (snd (handleConvertToProject calm
                              (viewing_world stale_copy stale_copy []))))
       = false.
Proof.
  apply (proj2 (converted_estimate_offers_nothing calm
                  (viewing_world stale_copy stale_copy []) stale_copy stale_copy
                  (mkProfile (lit "user-1")) eq_refl eq_refl eq_refl eq_refl
                  ltac:(discriminate) ltac:(repeat split)));
    reflexivity.
Defined.

End ConvertMoreFacts.

(** ** Status changes and the footer *)

Module FooterFacts.

Import EstimateDetailModal EstimateTerms MoreTerms JsFacts TotalsFacts EditorFacts
  SaveFacts ConvertFacts ReloadFacts SaveMoreFacts.

Lemma shows_convert_buttons_iff (e : EstimateDetail) :
  shows_convert_buttons e = true <-> status e = lit "accepted" /\ unconverted e.
Proof.
  unfold shows_convert_buttons, unconverted.
  rewrite !andb_true_iff, str_eqb_eq.
  destruct (or_null (converted_to_ticket_id e)), (or_null (converted_to_project_id e));
    intuition congruence.
Qed.

Ltac status_clash :=
  match goal with
  | H1 : status ?e = _, H2 : status ?e = _ |- _ =>
      rewrite H1 in H2; vm_compute in H2; discriminate
  end.

Ltac footer_iff :=
  split;
  [ let H := fresh "Hin" in
    intros H; simpl in H;
    repeat (destruct H as [H | H]; try discriminate H);
    try contradiction; solve [auto | tauto]
  | let H := fresh "Hst" in
    intros H; simpl;
    first [ solve [auto] | solve [tauto]
          | exfalso;
            repeat match goal with
                   | H0 : _ \/ _ |- _ => destruct H0
                   | H0 : _ /\ _ |- _ => destruct H0
                   end;
            status_clash ] ].

Lemma footer_cases (e : EstimateDetail) :
  (status e = lit "draft" /\ footer_buttons e = [MarkAsSent])
  \/ ((status e = lit "sent" \/ status e = lit "viewed")
      /\ footer_buttons e = [Accept; Reject])
  \/ (status e = lit "accepted" /\ unconverted e
      /\ footer_buttons e = [ConvertToTicket; ConvertToProject])
  \/ (status e <> lit "draft"
      /\ ~ (status e = lit "sent" \/ status e = lit "viewed")
      /\ ~ (status e = lit "accepted" /\ unconverted e)
      /\ footer_buttons e = []).
Proof.
  unfold footer_buttons.
  pose proof (shows_convert_buttons_iff e) as Hconv.
  destruct (str_eqb (status e) (lit "draft")) eqn:Ed.
  - apply str_eqb_eq in Ed. left. split; [exact Ed|].
    unfold shows_convert_buttons. now rewrite Ed.
  - apply str_eqb_neq in Ed. right.
    destruct (str_eqb (status e) (lit "sent") || str_eqb (status e) (lit "viewed"))
      eqn:Es.
    + apply orb_true_iff in Es. rewrite !str_eqb_eq in Es. left.
      split; [exact Es|].
      unfold shows_convert_buttons. destruct Es as [-> | ->]; reflexivity.
    + apply orb_false_iff in Es. rewrite !str_eqb_neq in Es. right.
      destruct (shows_convert_buttons e) eqn:Hc.
      * left. destruct (proj1 Hconv eq_refl) as [Ha Hu].
        split; [exact Ha|]. split; [exact Hu | reflexivity].
      * right. repeat split; auto; try tauto.
        intros H. apply Hconv in H. discriminate.
Qed.

(** X19. The footer follows the status.  "Mark as Sent" is rendered exactly
    for a draft, "Accept" and "Reject" exactly for a sent or viewed estimate,
    the two conversion buttons exactly for an accepted estimate without a
    conversion reference; the three groups never appear together, and an
    estimate in any other state - rejected, converted, or accepted with a
    reference - is offered nothing. *)
Theorem footer_follows_the_status :
  forall (e : EstimateDetail),
    (In MarkAsSent (footer_buttons e) <-> status e = lit "draft")
    /\ (In Accept (footer_buttons e)
        <-> status e = lit "sent" \/ status e = lit "viewed")
    /\ (In Reject (footer_buttons e)
        <-> status e = lit "sent" \/ status e = lit "viewed")
    /\ (In ConvertToTicket (footer_buttons e)
        <-> status e = lit "accepted" /\ unconverted e)
    /\ (In ConvertToProject (footer_buttons e)
        <-> status e = lit "accepted" /\ unconverted e)
    /\ (footer_buttons e = []
        \/ footer_buttons e = [MarkAsSent]
        \/ footer_buttons e = [Accept; Reject]
        \/ footer_buttons e = [ConvertToTicket; ConvertToProject]).
Proof.
  intros e.
  destruct (footer_cases e)
    as [[Hd ->] | [[Hs ->] | [(Ha & Hu & ->) | (Hd & Hs & Ha & ->)]]];
    repeat match goal with |- _ /\ _ => split end;
    try footer_iff; auto.
Qed.

Ltac run_status :=
  unfold bind, try_catch_finally, alert, modify_ui, modify, updateEstimate, backend,
    throw_if_error, throw, ret;
  cbn [db calls alerts ui fst snd estimateId profile loading saving converting
       editing estimate lineItems estimates estimate_line_items tickets projects].

(** What the status update does to a row: the status and the date of that
    status are set, every other column stays. *)
Lemma status_patch_on_row (s : NewStatus) (now0 : jsstring) (r : EstimateDetail) :
  let r' := apply_patch (StatusChange (updateData s now0)) r in
  status r' = status_name s
  /\ date_of s r' = Some now0
  /\ (forall s', s' <> s -> date_of s' r' = date_of s' r)
  /\ other_columns r' = other_columns r.
Proof.
  destruct r, s; cbn; repeat split; intros [] Hs; cbn; congruence.
Qed.

Lemma footer_after_status (s : NewStatus) (now0 : jsstring) (r : EstimateDetail) :
  let r' := apply_patch (StatusChange (updateData s now0)) r in
  match s with
  | accepted => unconverted r -> footer_buttons r' = buttons_after s
  | _ => footer_buttons r' = buttons_after s
  end.
Proof.
  destruct r, s; cbn; try reflexivity.
  intros [H1 H2]. unfold footer_buttons, shows_convert_buttons. cbn in *.
  now rewrite H1, H2.
Qed.

(** X20. A status change either goes through or changes nothing.  The
    handler issues one update of the estimate, carrying the new status and
    the date of that status.  If the update is answered with an error, no
    table and no component state changes and the user is told 'Failed to
    mark estimate as ... Please try again.'.  If it goes through, the rows of
    the estimate get the new status and the date of that status and keep
    every other column, no other table changes, the reload follows, and
    'Estimate ... successfully' is shown - whether or not the reload
    succeeded.  When the reload finds the row, the component shows the new
    status and the footer moves on: Accept and Reject after 'sent', the
    conversion buttons after 'accepted' (for an estimate without conversion
    reference), nothing after 'rejected'. *)
Theorem status_change_outcomes :
  forall (env : Env) (w : World) (e : EstimateDetail) (s : NewStatus),
    estimate (ui w) = Some e ->
    (forall err,
        fails env (status_update env e s) = Some err ->
        handleStatusChange env s w
        = (Normal tt,
           mkWorld (db w) (calls w ++ [status_update env e s])
                   (alerts w ++ [status_failed s]) (ui w)))
    /\ (fails env (status_update env e s) = None ->
        let w' := snd (handleStatusChange env s w) in
        estimates (db w')
        = with_patch (StatusChange (updateData s (now env))) e (estimates (db w))
        /\ estimate_line_items (db w') = estimate_line_items (db w)
        /\ tickets (db w') = tickets (db w)
        /\ projects (db w') = projects (db w)
        /\ alerts w' = alerts w ++ [status_changed s]
        /\ exists loads,
             calls w' = calls w ++ [status_update env e s] ++ loads
             /\ Forall is_select loads)
    /\ (forall r,
          let r' := apply_patch (StatusChange (updateData s (now env))) r in
          status r' = status_name s
          /\ date_of s r' = Some (now env)
          /\ (forall s', s' <> s -> date_of s' r' = date_of s' r)
          /\ other_columns r' = other_columns r)
    /\ (forall row,
          fails env (status_update env e s) = None ->
          estimateId (ui w) = Some (est_id e) ->
          est_id e <> [] ->
          load_succeeds env (est_id e) (db w) row ->
          let w' := snd (handleStatusChange env s w) in
          exists shown,
            estimate (ui w') = Some shown
            /\ status shown = status_name s
            /\ match s with
               | accepted => unconverted row -> footer_buttons shown = buttons_after s
               | _ => footer_buttons shown = buttons_after s
               end).
Proof.
  intros env w e s He. unfold status_update. split; [|split; [|split]].
  - intros err Hfail. unfold handleStatusChange. rewrite He. run_status.
    rewrite Hfail. reflexivity.
  - intros Hok. unfold handleStatusChange. rewrite He. run_status. rewrite Hok.
    cbn [db calls alerts ui fst snd estimates estimate_line_items tickets projects].
    match goal with |- context [loadEstimateDetails env ?W] =>
      destruct (loadEstimateDetails_frame env W)
        as (w2 & loads & E & Hdb & Hal & Hca & Hsel & _)
    end.
    rewrite E. cbn [db calls alerts ui fst snd] in *.
    rewrite Hdb, Hal, Hca.
    cbn [db calls alerts ui fst snd estimates estimate_line_items tickets projects].
    unfold with_patch. do 5 (split; [reflexivity|]).
    exists loads. split; [now rewrite <- app_assoc | exact Hsel].
  - intros r. apply status_patch_on_row.
  - intros row Hok Hid Hne (Hs1 & Hs2 & Hrow).
    unfold handleStatusChange. rewrite He. run_status. rewrite Hok.
    cbn [db calls alerts ui fst snd estimates estimate_line_items tickets projects].
    match goal with |- context [loadEstimateDetails env ?W] =>
      rewrite (loadEstimateDetails_success env W (est_id e)
                 (apply_patch (StatusChange (updateData s (now env))) row) Hid Hne)
    end.
    + cbn [fst snd after_selects loaded_ui ui estimate].
      eexists. split; [reflexivity|].
      split; [apply status_patch_on_row | apply footer_after_status].
    + repeat split; auto.
      unfold estimates_with_id in *. cbn [db estimates].
      now rewrite estimates_with_id_patched, Hrow.
Qed.

Lemma status_change_outcomes_witness :
  exists shown,
    estimate (ui (snd (handleStatusChange calm accepted
                         (viewing_world sent_estimate sent_estimate []))))
    = Some shown
    /\ status shown = status_name accepted
    /\ (unconverted sent_estimate -> footer_buttons shown = buttons_after accepted).
Proof.
  apply (proj2 (proj2 (proj2 (status_change_outcomes calm
                                (viewing_world sent_estimate sent_estimate [])
                                sent_estimate accepted eq_refl)))
           sent_estimate).
  - reflexivity.
  - reflexivity.
  - discriminate.
  - repeat split.
Defined.

End FooterFacts.

(** ** More on ticket updates *)

Module TicketMoreFacts.

Import TicketDetailModal TicketTerms MoreTicketTerms JsFacts.

(** X21. The alert after a failed ticket update is never empty: whatever
    message and code the error carries, [errorMessage] is a non-empty
    text. *)
Theorem error_message_is_never_empty :
  forall (error : PgError), errorMessage error <> [].
Proof.
  intros error. unfold errorMessage.
  repeat match goal with
         | |- context [if ?b then _ else _] => destruct b
         end;
    discriminate.
Qed.

Section WithTicket.

Variable Ticket : Type.
Variable completed_date : Ticket -> option jsstring.
Variable parseFloat : jsstring -> number.

(** X22. One update, one outcome.  With a ticket loaded, [handleUpdate]
    issues exactly one update call, first of all, and resets [saving] on
    every path; [onUpdate] and [onClose] are called - in this order, and
    with no alert - exactly when the update is answered without error, and
    exactly one alert is shown otherwise.  With no ticket loaded it does
    nothing. *)
Theorem update_has_one_outcome :
  forall (now : jsstring) (answer : Answer) (u : Ui Ticket),
    let effects := fst (handleUpdate completed_date parseFloat now answer u) in
    let u' := snd (handleUpdate completed_date parseFloat now answer u) in
    (ticket u = None -> effects = [] /\ u' = u)
    /\ (forall t, ticket u = Some t ->
          hd_error effects
          = Some (UpdateTicket (ticketId u) (build_updates completed_date parseFloat now t u))
          /\ List.length (filter is_update_call effects) = 1
          /\ saving u' = false
          /\ (answer = Resolved None ->
              tl effects = [OnUpdate; OnClose])
          /\ (answer <> Resolved None ->
              List.length (filter is_alert effects) = 1
              /\ ~ In OnUpdate effects /\ ~ In OnClose effects)).
Proof.
  intros now answer u. unfold handleUpdate. split.
  - intros ->. now split.
  - intros t ->. destruct answer as [[error|]|m]; cbn.
    + do 3 (split; [reflexivity|]). split; [discriminate|]. intros _.
      split; [reflexivity|]. split; intros [Hin | [Hin | []]]; discriminate.
    + do 3 (split; [reflexivity|]). split; [reflexivity|]. intros Hne.
      now contradiction Hne.
    + do 3 (split; [reflexivity|]). split; [discriminate|]. intros _.
      split; [reflexivity|]. split; intros [Hin | [Hin | []]]; discriminate.
Qed.

(** X23. A completion date is sent once.  The update carries a
    [completed_date] exactly when the chosen status is 'completed' and the
    ticket has no completion date yet, and then it is the current time: a
    ticket that is completed already keeps the date it has. *)
Theorem completion_date_is_stamped_once :
  forall (now : jsstring) (t : Ticket) (u : Ui Ticket),
    let updates := build_updates completed_date parseFloat now t u in
    (upd_completed_date updates = Some now
     <-> status u = lit "completed" /\ or_null (completed_date t) = None)
    /\ (upd_completed_date updates = None
        <-> ~ (status u = lit "completed" /\ or_null (completed_date t) = None))
    /\ upd_status updates = status u.
Proof.
  intros now t u. unfold build_updates. cbn [upd_completed_date upd_status].
  destruct (str_eqb (status u) (lit "completed")) eqn:Es;
    [apply str_eqb_eq in Es | apply str_eqb_neq in Es];
    destruct (or_null (completed_date t)) eqn:Ec; cbn [andb];
    (split; [|split]; [split; intros H | split; intros H | reflexivity]);
    first [ discriminate H | reflexivity | tauto
          | destruct H; congruence
          | intros [? ?]; congruence
          | exfalso; apply H; split; congruence ].
Qed.

End WithTicket.

Lemma update_has_one_outcome_witness :
  hd_error (fst (handleUpdate (fun t => t) (fun _ => 2.5%float)
                   (lit "2024-05-01T12:00:00.000Z") (Resolved None) ticket_ui))
  = Some (UpdateTicket (ticketId ticket_ui)
            (build_updates (fun t => t) (fun _ => 2.5%float)
               (lit "2024-05-01T12:00:00.000Z") open_ticket ticket_ui)).
Proof.
  apply (proj2 (update_has_one_outcome (option jsstring) (fun t => t)
                  (fun _ => 2.5%float) (lit "2024-05-01T12:00:00.000Z")
                  (Resolved None) ticket_ui) open_ticket).
  reflexivity.
Defined.

End TicketMoreFacts.
